(** * The idea collector (collect.py): a shallow embedding and its properties

    The source is one Python module: two fetchers (Reddit, YouTube), each with
    a field extractor and a fetch method, a [DataCollector] that runs both and
    writes a JSON snapshot, and [main].

    Conventions of the embedding.
    - Python values that come out of [response.json()] are the inductive
      [value]; a dict is an association list read by its first binding.
      A JSON integer is a [Z]; a float is [NaN], an infinity or the exact
      rational it stands for.  A str is a [string], one character per
      [ascii].
    - A Python exception is [Raise e]; a normal return is [Ret a].  Local
      variables a loop mutates ([all_results], the seen-id set) are passed
      along and survive an exception, as they do in Python.
    - Everything the module reads from or writes to its environment
      (process environment, settings file, network, clock, directories and
      files) is a field of [World], threaded explicitly.  The network is
      any function from the position of a request in the run and the
      request to an answer; the requests sent are logged in [sent].
    - [list.sort] is library code.  The module is embedded over any sort
      that meets the contract [ListSort] (no comparison on fewer than two
      elements, the result a permutation, the stable descending order
      whenever [<] orders the keys consistently); [reference_sort] is one
      such sort, used to run the embedding on concrete inputs.
    - A path built with pathlib's [/] is kept as the expression [Join].
    - [print] and [time.sleep] are not modelled.

    Layout: values and exceptions; sort and slice; records, settings and
    [World]; the fetch loop; the two fetchers; the collector and [main];
    reference definitions; concrete runs; then the properties. *)

From Stdlib Require Import Qcanon.
From stdpp Require Import numbers countable.
From stdpp Require Import base option list strings gmap fin_maps fin_sets sorting.
From Stdlib Require Import ZArith Lia.

#[local] Set Warnings "-clear-no-such-hyp".
#[local] Close Scope Qc_scope.
#[local] Close Scope Q_scope.

(** ** Python values and exceptions *)

(** A Python float as [json] reads it: [NaN], [Infinity] or [-Infinity],
    or a finite double, kept as the rational number it denotes.  The JSON
    decoder returns one and the same object for every [NaN] it reads. *)
Inductive pyfloat : Type :=
  | FNaN
  | FInf (negative : bool)
  | FFin (q : Qc).

#[warnings="-register-all"]
Inductive value : Type :=
  | VNone
  | VBool (b : bool)
  | VInt (n : Z)
  | VFloat (f : pyfloat)
  | VStr (s : string)
  | VList (l : list value)
  | VDict (d : list (string * value)).

(** The exception classes the module can meet.  All of them derive from
    [Exception]; only [KeyError] is caught by the extractors. *)
Inductive exn : Type :=
  | KeyError
  | TypeError
  | AttributeError
  | ValueError
  | RedditAPIError
  | FileNotFoundError
  | OSError
  | RequestException
  | JSONDecodeError.

Inductive outcome (A : Type) : Type :=
  | Ret (a : A)
  | Raise (e : exn).
Arguments Ret {A} a.
Arguments Raise {A} e.

#[global] Instance outcome_ret : MRet outcome := fun A a => Ret a.
#[global] Instance outcome_bind : MBind outcome := fun A B f m =>
  match m with
  | Ret a => f a
  | Raise e => Raise e
  end.

#[global] Instance exn_eq_dec : EqDecision exn.
Proof. solve_decision. Defined.

#[global] Instance outcome_eq_dec {A} `{EqDecision A} : EqDecision (outcome A).
Proof. solve_decision. Defined.

Definition is_Ret {A} (o : outcome A) : bool :=
  match o with Ret _ => true | Raise _ => false end.

Fixpoint dict_lookup (k : string) (d : list (string * value)) : option value :=
  match d with
  | [] => None
  | (k', v) :: d' => if String.eqb k k' then Some v else dict_lookup k d'
  end.

(** [v[k]] for a string key [k]: a dict looks the key up, every other value
    of the embedding raises [TypeError] (not subscriptable, or a list or str
    indexed by a str). *)
Definition py_getitem (v : value) (k : string) : outcome value :=
  match v with
  | VDict d =>
      match dict_lookup k d with
      | Some x => Ret x
      | None => Raise KeyError
      end
  | _ => Raise TypeError
  end.

(** [v.get(k, dflt)]: only dicts have the method. *)
Definition py_get (v : value) (k : string) (dflt : value) : outcome value :=
  match v with
  | VDict d => Ret (default dflt (dict_lookup k d))
  | _ => Raise AttributeError
  end.

(** [for x in v]: a list yields its elements, a dict its keys, a str its
    characters; [None], booleans and numbers are not iterable. *)
Definition py_iter (v : value) : outcome (list value) :=
  match v with
  | VList l => Ret l
  | VDict d => Ret ((λ kv, VStr kv.1) <$> d)
  | VStr s => Ret ((λ c, VStr (String c EmptyString)) <$> String.list_ascii_of_string s)
  | _ => Raise TypeError
  end.

(** ** Numbers, equality and [<] *)

(** The numeric value of a bool, an int or a float. *)
Inductive num : Type :=
  | NNaN
  | NNegInf
  | NFin (q : Qc)
  | NPosInf.

Definition num_of (v : value) : option num :=
  match v with
  | VBool b => Some (NFin (Qc_of_Z (if b then 1 else 0)))
  | VInt n => Some (NFin (Qc_of_Z n))
  | VFloat FNaN => Some NNaN
  | VFloat (FInf true) => Some NNegInf
  | VFloat (FInf false) => Some NPosInf
  | VFloat (FFin q) => Some (NFin q)
  | _ => None
  end.

(** [x < y] on numbers: exact, and false as soon as one side is [NaN]. *)
Definition num_ltb (x y : num) : bool :=
  match x, y with
  | NNaN, _ | _, NNaN => false
  | NNegInf, NNegInf => false
  | NNegInf, _ => true
  | _, NNegInf => false
  | NPosInf, _ => false
  | NFin _, NPosInf => true
  | NFin p, NFin q => bool_decide (p < q)%Qc
  end.

(** [x is y or x == y] on decoded numbers: the decoder's [NaN] is itself. *)
Definition num_eqb (x y : num) : bool :=
  match x, y with
  | NNaN, NNaN | NNegInf, NNegInf | NPosInf, NPosInf => true
  | NFin p, NFin q => bool_decide (p = q)
  | _, _ => false
  end.

(** [a is b or a == b], the test lists and dicts apply to their elements
    when they are compared: it never raises; numbers compare by value
    across bool, int and float, lists element by element, dicts key by
    key, and values of different kinds are unequal. *)
Fixpoint py_eq (a b : value) : bool :=
  match a, b with
  | VNone, VNone => true
  | VStr s, VStr t => String.eqb s t
  | VList l1, VList l2 =>
      (fix go (l1 l2 : list value) : bool :=
         match l1, l2 with
         | [], [] => true
         | x :: l1', y :: l2' => py_eq x y && go l1' l2'
         | _, _ => false
         end) l1 l2
  | VDict d1, VDict d2 =>
      forallb (λ kv, match dict_lookup kv.1 d1 with Some _ => true | None => false end) d2
      && (fix go (shadowed : list string) (d : list (string * value)) : bool :=
            match d with
            | [] => true
            | (k, v) :: d' =>
                if existsb (String.eqb k) shadowed then go shadowed d'
                else
                  match dict_lookup k d2 with
                  | Some v' => py_eq v v' && go (k :: shadowed) d'
                  | None => false
                  end
            end) [] d1
  | _, _ =>
      match num_of a, num_of b with
      | Some x, Some y => num_eqb x y
      | _, _ => false
      end
  end.

(** [a < b]: numbers among themselves, strings among themselves by code
    point, lists lexicographically (the first pair of unequal elements
    decides, else the lengths); anything else raises [TypeError]. *)
Fixpoint py_lt (a b : value) : outcome bool :=
  match a, b with
  | VStr s, VStr t => Ret (String.ltb s t)
  | VList l1, VList l2 =>
      (fix go (l1 l2 : list value) : outcome bool :=
         match l1, l2 with
         | [], [] => Ret false
         | [], _ :: _ => Ret true
         | _ :: _, [] => Ret false
         | x :: l1', y :: l2' => if py_eq x y then go l1' l2' else py_lt x y
         end) l1 l2
  | _, _ =>
      match num_of a, num_of b with
      | Some x, Some y => Ret (num_ltb x y)
      | _, _ => Raise TypeError
      end
  end.

(** [a < b] evaluates to [True]. *)
Definition py_ltb (a b : value) : bool :=
  match py_lt a b with
  | Ret true => true
  | _ => false
  end.

(** ** Set keys *)

(** Keys of a Python [set].  Membership hashes the element and tests
    [is] or [==]: [True], [1] and [1.0] are one key, the decoder's [NaN]
    is found again as the object it is, lists and dicts are unhashable. *)
Inductive hkey : Type :=
  | HNone
  | HNum (q : Qc)
  | HInf (negative : bool)
  | HNaN
  | HStr (s : string).

#[global] Instance hkey_eq_dec : EqDecision hkey.
Proof. solve_decision. Defined.

#[global] Instance hkey_countable : Countable hkey.
Proof.
  refine (inj_countable'
    (λ k, match k with
          | HNone => inl ()
          | HNum q => inr (inl q)
          | HInf s => inr (inr (inl s))
          | HNaN => inr (inr (inr (inl ())))
          | HStr s => inr (inr (inr (inr s)))
          end)
    (λ x, match x with
          | inl _ => HNone
          | inr (inl q) => HNum q
          | inr (inr (inl s)) => HInf s
          | inr (inr (inr (inl _))) => HNaN
          | inr (inr (inr (inr s))) => HStr s
          end) _).
  by intros [].
Defined.

(** The key under which a set holds [v]; lists and dicts raise
    [TypeError]. *)
Definition py_hash (v : value) : outcome hkey :=
  match v with
  | VNone => Ret HNone
  | VBool b => Ret (HNum (Qc_of_Z (if b then 1 else 0)))
  | VInt n => Ret (HNum (Qc_of_Z n))
  | VFloat FNaN => Ret HNaN
  | VFloat (FInf s) => Ret (HInf s)
  | VFloat (FFin q) => Ret (HNum q)
  | VStr s => Ret (HStr s)
  | VList _ | VDict _ => Raise TypeError
  end.

(** ** [list.sort(key=..., reverse=True)] and [l[:n]] *)

Section Sort.
Context {A : Type} (key : A → value).

(** Stable descending insertion: [x] comes from further left in the
    original list than everything in [l], so it goes in front of the first
    element whose key is not strictly greater. *)
Fixpoint insert_desc (x : A) (l : list A) : list A :=
  match l with
  | [] => [x]
  | y :: l' =>
      if py_ltb (key x) (key y) then y :: insert_desc x l'
      else x :: y :: l'
  end.

(** The stable descending arrangement of [l]. *)
Definition sorted_desc (l : list A) : list A := foldr insert_desc [] l.
End Sort.

(** [a] is not below [b]: [a < b] evaluates to [False]. *)
Definition ranked_ge (a b : value) : Prop := py_lt a b = Ret false.

(** Neither is below the other: the two keys tie. *)
Definition tied (a b : value) : Prop := ranked_ge a b ∧ ranked_ge b a.

#[global] Instance tied_dec (a b : value) : Decision (tied a b).
Proof. unfold tied, ranked_ge. apply _. Defined.

(** A number other than [NaN]; a string. *)
Definition is_num (v : value) : bool :=
  match num_of v with
  | Some NNaN | None => false
  | Some _ => true
  end.

Definition is_str (v : value) : bool :=
  match v with VStr _ => true | _ => false end.

(** [<] orders the keys [ks] consistently: no comparison among them
    raises, [<] is asymmetric, and "not below" is transitive.  Then "not
    below" is a total preorder on [ks], and every stable comparison sort
    arranges a list with these keys the same way.  A [NaN] next to two
    different numbers breaks the transitivity. *)
Definition consistent (ks : list value) : Prop :=
  (∀ a b, a ∈ ks → b ∈ ks → is_Ret (py_lt a b) = true)
  ∧ (∀ a b, a ∈ ks → b ∈ ks → py_lt a b = Ret true → py_lt b a = Ret false)
  ∧ (∀ a b c, a ∈ ks → b ∈ ks → c ∈ ks →
       ranked_ge a b → ranked_ge b c → ranked_ge a c).

(** What the module relies on from [list.sort(key=..., reverse=True)]: the
    new contents of the list, or the exception of a comparison.  A list of
    fewer than two elements is left alone without any comparison; a sort
    that returns has permuted the list; keys that [<] orders consistently
    come out in the stable descending arrangement.  On other keys the
    outcome depends on which comparisons the algorithm makes, and nothing
    more is assumed. *)
Class ListSort : Type := {
  list_sort_reverse : ∀ {A : Type}, (A → value) → list A → outcome (list A);
  list_sort_short : ∀ {A : Type} (key : A → value) (l : list A),
    length l < 2 → list_sort_reverse key l = Ret l;
  list_sort_perm : ∀ {A : Type} (key : A → value) (l s : list A),
    list_sort_reverse key l = Ret s → s ≡ₚ l;
  list_sort_consistent : ∀ {A : Type} (key : A → value) (l : list A),
    consistent (key <$> l) → list_sort_reverse key l = Ret (sorted_desc key l);
}.

(** One sort of that kind: it returns the stable descending arrangement
    when every two keys can be compared, and raises [TypeError]
    otherwise. *)
Definition reference_sort_reverse {A : Type} (key : A → value) (l : list A)
  : outcome (list A) :=
  match l with
  | [] | [_] => Ret l
  | _ =>
      if forallb (λ x, forallb (λ y, is_Ret (py_lt (key x) (key y))) l) l
      then Ret (sorted_desc key l)
      else Raise TypeError
  end.

(** [l[:n]]: the first [n] elements, and for a negative [n] all but the
    last [-n]. *)
Definition py_slice_to {A} (l : list A) (n : Z) : list A :=
  if (0 <=? n)%Z then take (Z.to_nat n) l
  else take (length l - Z.to_nat (- n)) l.
(** ** Records, settings and the environment *)

(** An f-string with one placeholder at its end, [f"prefix{arg}"]: the text
    and the value whose [str()] follows it. *)
Record fstring : Type := FStr { fs_prefix : string; fs_arg : value }.

(** The dict built by [RedditFetcher._extract_post_data]. *)
Record post : Type := {
  p_id : value;
  p_title : value;
  p_selftext : value;
  p_subreddit : value;
  p_author : value;
  p_score : value;
  p_num_comments : value;
  p_created_utc : value;
  p_permalink : fstring;
  p_fetched_at : string;
}.

(** The dict built by [YouTubeFetcher._extract_video_data]. *)
Record video : Type := {
  v_videoId : value;
  v_title : value;
  v_description : value;
  v_channelTitle : value;
  v_publishedAt : value;
  v_url : fstring;
  v_fetched_at : string;
}.

Inductive record : Type :=
  | RedditPost (p : post)
  | YouTubeVideo (v : video).

(** A path as the module builds it: the directory of config.yml, and
    [dir / name]. *)
Inductive path : Type :=
  | ConfigDir
  | Join (dir : path) (name : string).

(** The dict [output_data] that [save_json] dumps.  Key order of the Python
    dicts is not represented. *)
Record Metadata : Type := {
  total_items : nat;
  sources : gmap string nat;
  fetched_at : string;
}.

Record Snapshot : Type := {
  metadata : Metadata;
  data : gmap string (list record);
}.

(** The settings object of config.yml, with the sections [run],
    [sources.reddit] and [sources.youtube] taken as present; an [option]
    field is a key that may be missing. *)
Record RunConfig : Type := {
  out_dir : option string;   (* subscripted: a missing key is a KeyError *)
  max_items_per_source : option Z;
}.

Record RedditConfig : Type := {
  reddit_enabled : option bool;
  subreddits : option (list string);
}.

Record YouTubeConfig : Type := {
  youtube_enabled : option bool;
  search_terms : option (list string);
}.

Record Config : Type := {
  run : RunConfig;
  sources_reddit : RedditConfig;
  sources_youtube : YouTubeConfig;
}.

(** [datetime.now()], by the two renderings the module takes of it. *)
Record datetime : Type := {
  isoformat : string;
  strftime : string; (* "%Y-%m-%d_%H-%M-%S" *)
}.

Inductive request : Type :=
  (* requests.post('https://www.reddit.com/api/v1/access_token', ...) with
     HTTP basic authentication by (client_id, client_secret) *)
  | AccessToken (client_id client_secret : string)
  (* session.get(f"https://oauth.reddit.com/r/{subreddit}/hot", params) with
     the session's Authorization header *)
  | RedditHot (authorization : fstring) (subreddit : string) (limit raw_json : Z)
  (* session.get("https://www.googleapis.com/youtube/v3/search", params) *)
  | YouTubeSearch (part q : string) (maxResults : Z) (type key : string).

Record response : Type := {
  status_code : Z;
  json : outcome value;
}.

Record World : Type := {
  (* fixed for a run *)
  environ : gmap string string;        (* os.environ, after load_dotenv *)
  config_yml : option (outcome Config);
    (* None: the file does not exist; Some (Raise e): opening or parsing
       it raises [e], or the document has no [run] section and
       subscripting it raises [e]; Some (Ret c): the settings loaded *)
  mkdir_ok : bool;                     (* out_dir can be created *)
  file_write : path → Snapshot → outcome unit;
    (* open(path, "w") and the dump of the snapshot: done, or the
       exception either of them raises *)
  http : nat → request → outcome response;  (* answer to the n-th request *)
  clock : nat → datetime;              (* n-th reading of the clock *)
  (* changed by the run *)
  sent : list request;
  ticks : nat;
  dirs : list path;                    (* directories made *)
  files : list (path * Snapshot);      (* snapshots dumped in full *)
}.

Definition send (req : request) (w : World) : outcome response * World :=
  (http w (length (sent w)) req,
   {| environ := environ w; config_yml := config_yml w; mkdir_ok := mkdir_ok w;
      file_write := file_write w; http := http w; clock := clock w;
      sent := sent w ++ [req]; ticks := ticks w;
      dirs := dirs w; files := files w |}).

Definition now (w : World) : datetime * World :=
  (clock w (ticks w),
   {| environ := environ w; config_yml := config_yml w; mkdir_ok := mkdir_ok w;
      file_write := file_write w; http := http w; clock := clock w;
      sent := sent w; ticks := S (ticks w);
      dirs := dirs w; files := files w |}).

(** [p.mkdir(parents=True, exist_ok=True)], when it succeeds. *)
Definition make_dir (p : path) (w : World) : World :=
  {| environ := environ w; config_yml := config_yml w; mkdir_ok := mkdir_ok w;
     file_write := file_write w; http := http w; clock := clock w;
     sent := sent w; ticks := ticks w;
     dirs := dirs w ++ [p]; files := files w |}.

Definition write_file (p : path) (s : Snapshot) (w : World) : World :=
  {| environ := environ w; config_yml := config_yml w; mkdir_ok := mkdir_ok w;
     file_write := file_write w; http := http w; clock := clock w;
     sent := sent w; ticks := ticks w;
     dirs := dirs w; files := files w ++ [(p, s)] |}.

(** [not s] for the result of [os.environ.get]: [None] and [""] are falsy. *)
Definition falsy (s : option string) : bool :=
  match s with
  | None => true
  | Some s => bool_decide (s = "")
  end.

Definition is_ascii (s : string) : bool :=
  forallb (λ c, Nat.ltb (Ascii.nat_of_ascii c) 128) (String.list_ascii_of_string s).

(** ** The loop shared by the two fetch methods

    Both fetchers run the same two nested loops over their query targets and
    the raw items of each answer, with [all_results] and the seen-id set as
    local variables.  The loops are written once here, over the extractor
    and the identity key. *)

Record accum (A : Type) : Type := Accum {
  all_results : list A;
  seen : gset hkey;
}.
Arguments Accum {A} _ _.
Arguments all_results {A} _.
Arguments seen {A} _.

Section FetchLoop.
Context {A : Type}.
Context (extract : value → World → outcome (option A) * World).
Context (ident : A → value).
Context (request_for : string → request).
Context (items_of : value → outcome value).

(** The body of [for item in items]: extract, test [rec and rec[id] not in
    seen], append and add.  An exception leaves the two variables as they
    were. *)
Definition visit_item (item : value) (st : accum A) (w : World)
  : outcome (accum A) * World :=
  match extract item w with
  | (Raise e, w') => (Raise e, w')
  | (Ret None, w') => (Ret st, w')
  | (Ret (Some r), w') =>
      match py_hash (ident r) with
      | Raise e => (Raise e, w')
      | Ret k =>
          if decide (k ∈ seen st) then (Ret st, w')
          else (Ret (Accum (all_results st ++ [r]) ({[k]} ∪ seen st)), w')
      end
  end.

(** [for item in items]: what was appended before an exception stays. *)
Fixpoint for_items (items : list value) (st : accum A) (w : World)
  : outcome unit * accum A * World :=
  match items with
  | [] => (Ret (), st, w)
  | item :: rest =>
      match visit_item item st w with
      | (Ret st', w') => for_items rest st' w'
      | (Raise e, w') => (Raise e, st, w')
      end
  end.

(** The statements of the [try] block after the request, up to the end of
    the item loop. *)
Definition read_response (resp : response) (st : accum A) (w : World)
  : outcome unit * accum A * World :=
  if bool_decide (status_code resp ≠ 200%Z) then (Ret (), st, w)
  else
    match (data ← json resp; items ← items_of data; py_iter items) with
    | Raise e => (Raise e, st, w)
    | Ret items => for_items items st w
    end.

(** One turn of [for target in targets]: the request and the [try] block;
    [except Exception] goes on with the next target. *)
Definition visit_target (target : string) (st : accum A) (w : World)
  : accum A * World :=
  match send (request_for target) w with
  | (Raise _, w') => (st, w')
  | (Ret resp, w') =>
      let '(_, st', w'') := read_response resp st w' in (st', w'')
  end.

Fixpoint for_targets (targets : list string) (st : accum A) (w : World)
  : accum A * World :=
  match targets with
  | [] => (st, w)
  | target :: rest =>
      let '(st', w') := visit_target target st w in
      for_targets rest st' w'
  end.
End FetchLoop.

(** ** RedditFetcher *)

Record RedditFetcher : Type := {
  rf_config : Config;
  reddit_config : RedditConfig;
  access_token : value;
}.

(** The Authorization header [_authenticate] puts on the session. *)
Definition session_authorization (self : RedditFetcher) : fstring :=
  FStr "Bearer " (access_token self).

(** [RedditFetcher._authenticate]; the result is the access token. *)
Definition _authenticate (w : World) : outcome value * World :=
  let client_id := environ w !! "REDDIT_CLIENT_ID" in
  let client_secret := environ w !! "REDDIT_CLIENT_SECRET" in
  if falsy client_id || falsy client_secret then (Raise RedditAPIError, w)
  else
    let id := default "" client_id in
    let secret := default "" client_secret in
    (* auth_string.encode('ascii') *)
    if negb (is_ascii id && is_ascii secret) then (Raise ValueError, w)
    else
      match send (AccessToken id secret) w with
      | (Raise e, w') => (Raise e, w')
      | (Ret resp, w') =>
          if bool_decide (status_code resp = 200%Z) then
            (token_data ← json resp; py_getitem token_data "access_token", w')
          else (Raise RedditAPIError, w')
      end.

(** [RedditFetcher.__init__] *)
Definition RedditFetcher_init (config : Config) (w : World)
  : outcome RedditFetcher * World :=
  match _authenticate w with
  | (Raise e, w') => (Raise e, w')
  | (Ret token, w') =>
      (Ret {| rf_config := config;
              reddit_config := sources_reddit config;
              access_token := token |}, w')
  end.

(** [RedditFetcher._extract_post_data]: the dict display is evaluated field
    by field, the clock last; [except KeyError] turns a missing key into
    [None] and lets every other exception through. *)
Definition _extract_post_data (post_data : value) (w : World)
  : outcome (option post) * World :=
  let fields :=
    data ← py_getitem post_data "data";
    id ← py_getitem data "id";
    title ← py_getitem data "title";
    selftext ← py_get data "selftext" (VStr "");
    subreddit ← py_getitem data "subreddit";
    author ← py_get data "author" (VStr "[deleted]");
    score ← py_get data "score" (VInt 0);
    num_comments ← py_get data "num_comments" (VInt 0);
    created_utc ← py_getitem data "created_utc";
    permalink ← py_getitem data "permalink";
    mret (λ t, {| p_id := id; p_title := title; p_selftext := selftext;
                  p_subreddit := subreddit; p_author := author;
                  p_score := score; p_num_comments := num_comments;
                  p_created_utc := created_utc;
                  p_permalink := FStr "https://www.reddit.com" permalink;
                  p_fetched_at := t |}) in
  match fields with
  | Ret mk => let '(t, w') := now w in (Ret (Some (mk (isoformat t))), w')
  | Raise KeyError => (Ret None, w)
  | Raise e => (Raise e, w)
  end.

(** [data.get("data", {}).get("children", [])] *)
Definition reddit_children (data : value) : outcome value :=
  d ← py_get data "data" (VDict []); py_get d "children" (VList []).

Definition reddit_request (self : RedditFetcher) (subreddit : string) : request :=
  RedditHot (session_authorization self) subreddit 25 1.

(** The loop of [fetch_reddit_posts], from the empty [all_results] and
    [seen_post_ids]. *)
Definition reddit_collect (self : RedditFetcher) (targets : list string) (w : World)
  : accum post * World :=
  for_targets _extract_post_data p_id (reddit_request self) reddit_children
    targets (Accum [] ∅) w.

(** [RedditFetcher.fetch_reddit_posts] *)
Definition fetch_reddit_posts {L : ListSort}
    (self : RedditFetcher) (max_items : Z) (w : World)
  : outcome (list post) * World :=
  if negb (default false (reddit_enabled (reddit_config self))) then (Ret [], w)
  else
    let targets := default [] (subreddits (reddit_config self)) in
    if bool_decide (targets = []) then (Ret [], w)
    else
      let '(st, w') := reddit_collect self targets w in
      (sorted ← list_sort_reverse p_score (all_results st);
       mret (py_slice_to sorted max_items), w').

(** ** YouTubeFetcher *)

Record YouTubeFetcher : Type := {
  yf_config : Config;
  api_key : string;
}.

(** [YouTubeFetcher.__init__] *)
Definition YouTubeFetcher_init (config : Config) (w : World)
  : outcome YouTubeFetcher * World :=
  let key := environ w !! "YOUTUBE_API_KEY" in
  if falsy key then (Raise ValueError, w)
  else (Ret {| yf_config := config; api_key := default "" key |}, w).

(** [YouTubeFetcher._extract_video_data] *)
Definition _extract_video_data (item : value) (w : World)
  : outcome (option video) * World :=
  let fields :=
    id ← py_getitem item "id";
    video_id ← py_getitem id "videoId";
    snippet ← py_getitem item "snippet";
    title ← py_getitem snippet "title";
    description ← py_getitem snippet "description";
    channelTitle ← py_getitem snippet "channelTitle";
    publishedAt ← py_getitem snippet "publishedAt";
    mret (λ t, {| v_videoId := video_id; v_title := title;
                  v_description := description;
                  v_channelTitle := channelTitle;
                  v_publishedAt := publishedAt;
                  v_url := FStr "https://www.youtube.com/watch?v=" video_id;
                  v_fetched_at := t |}) in
  match fields with
  | Ret mk => let '(t, w') := now w in (Ret (Some (mk (isoformat t))), w')
  | Raise KeyError => (Ret None, w)
  | Raise e => (Raise e, w)
  end.

(** [data.get("items", [])] *)
Definition youtube_items (data : value) : outcome value :=
  py_get data "items" (VList []).

(** The [params] dict of one search; [maxResults] is
    [max_items // len(search_terms)]. *)
Definition youtube_request (self : YouTubeFetcher) (max_items : Z)
    (search_terms : list string) (term : string) : request :=
  YouTubeSearch "snippet" term (max_items `div` Z.of_nat (length search_terms))
    "video" (api_key self).

Definition youtube_collect (self : YouTubeFetcher) (max_items : Z)
    (search_terms : list string) (w : World) : accum video * World :=
  for_targets _extract_video_data v_videoId
    (youtube_request self max_items search_terms) youtube_items
    search_terms (Accum [] ∅) w.

(** [YouTubeFetcher.fetch_youtube_videos] *)
Definition fetch_youtube_videos {L : ListSort}
    (self : YouTubeFetcher) (max_items : Z) (w : World)
  : outcome (list video) * World :=
  let youtube_config := sources_youtube (yf_config self) in
  if negb (default false (youtube_enabled youtube_config)) then (Ret [], w)
  else
    let terms := default [] (search_terms youtube_config) in
    if bool_decide (terms = []) then (Ret [], w)
    else
      let '(st, w') := youtube_collect self max_items terms w in
      (sorted ← list_sort_reverse v_publishedAt (all_results st);
       mret (py_slice_to sorted max_items), w').

(** ** DataCollector and main *)

Record DataCollector : Type := {
  dc_config : Config;
  dc_out_dir : path;
  youtube_fetcher : YouTubeFetcher;
  reddit_fetcher : RedditFetcher;
}.

(** [DataCollector.__init__]: load the settings, make the output directory
    [config_dir / out_dir], then build the YouTube fetcher and the Reddit
    fetcher, in that order and outside any [try]. *)
Definition DataCollector_init (w : World) : outcome DataCollector * World :=
  match config_yml w with
  | None => (Raise FileNotFoundError, w)
  | Some (Raise e) => (Raise e, w)
  | Some (Ret config) =>
      match out_dir (run config) with
      | None => (Raise KeyError, w)
      | Some name =>
          let out := Join ConfigDir name in
          if negb (mkdir_ok w) then (Raise OSError, w)
          else
            match YouTubeFetcher_init config (make_dir out w) with
            | (Raise e, w1) => (Raise e, w1)
            | (Ret yf, w1) =>
                match RedditFetcher_init config w1 with
                | (Raise e, w2) => (Raise e, w2)
                | (Ret rf, w2) =>
                    (Ret {| dc_config := config;
                            dc_out_dir := out;
                            youtube_fetcher := yf;
                            reddit_fetcher := rf |}, w2)
                end
            end
      end
  end.

(** [DataCollector.collect_all_data] *)
Definition collect_all_data {L : ListSort} (self : DataCollector) (w : World)
  : gmap string (list record) * World :=
  let results : gmap string (list record) := ∅ in
  let max_items := default 20%Z (max_items_per_source (run (dc_config self))) in
  let '(results, w) :=
    if default false (youtube_enabled (sources_youtube (dc_config self))) then
      match fetch_youtube_videos (youtube_fetcher self) max_items w with
      | (Ret l, w') => (<["youtube" := YouTubeVideo <$> l]> results, w')
      | (Raise _, w') => (<["youtube" := []]> results, w')
      end
    else (results, w) in
  let '(results, w) :=
    if default false (reddit_enabled (sources_reddit (dc_config self))) then
      match fetch_reddit_posts (reddit_fetcher self) max_items w with
      | (Ret l, w') => (<["reddit" := RedditPost <$> l]> results, w')
      | (Raise _, w') => (<["reddit" := []]> results, w')
      end
    else (results, w) in
  (results, w).

(** The dict [output_data] of [save_json], given the reading of the clock. *)
Definition output_data (data : gmap string (list record)) (t : datetime) : Snapshot :=
  {| metadata :=
       {| total_items := sum_list (length <$> (map_to_list data).*2);
          sources := length <$> data;
          fetched_at := isoformat t |};
     data := data |}.

(** [DataCollector.save_json]; the result is the path written.  [filepath]
    is the pathlib expression [out_dir / filename] (an absolute [filename]
    stands for itself there).  When the file cannot be opened or dumped
    to, the exception leaves the method and no snapshot is on record. *)
Definition save_json (self : DataCollector) (data : gmap string (list record))
    (filename : option string) (w : World) : outcome path * World :=
  let '(t, w1) := now w in
  let out := output_data data t in
  let '(filename, w2) :=
    if falsy filename then
      let '(timestamp, w2) := now w1 in (strftime timestamp +:+ ".json", w2)
    else (default "" filename, w1) in
  let filepath := Join (dc_out_dir self) filename in
  match file_write w2 filepath out with
  | Ret _ => (Ret filepath, write_file filepath out w2)
  | Raise e => (Raise e, w2)
  end.

(** [any(all_data.values())] *)
Definition any_values (all_data : gmap string (list record)) : bool :=
  existsb (λ l, negb (bool_decide (l = []))) (map_to_list all_data).*2.

(** [main]; the result is the exit code. *)
Definition main {L : ListSort} (w : World) : Z * World :=
  match config_yml w with
  | None => (1%Z, w)
  | Some _ =>
      match DataCollector_init w with
      | (Raise _, w1) => (1%Z, w1)
      | (Ret collector, w1) =>
          let '(all_data, w2) := collect_all_data collector w1 in
          if any_values all_data then
            match save_json collector all_data None w2 with
            | (Ret _, w3) => (0%Z, w3)
            | (Raise _, w3) => (1%Z, w3)
            end
          else (0%Z, w2)
      end
  end.

(** ** Reference definitions for the fetch loop

    What the specification says of a fetch, written independently of the
    loop: the records the extractor yields during the run, in the order of
    the query targets and of the items, and the list that keeps the first
    record of every identity key. *)

Section Reference.
Context {A : Type}.
Context (extract : value → World → outcome (option A) * World).
Context (ident : A → value).
Context (request_for : string → request).
Context (items_of : value → outcome value).

Definition hash_of (r : A) : option hkey :=
  match py_hash (ident r) with
  | Ret k => Some k
  | Raise _ => None
  end.

(** First occurrence wins: a record is kept when its key is hashable and
    is neither in [earlier] nor the key of a record before it. *)
Fixpoint dedup_from (earlier : gset hkey) (l : list A) : list A :=
  match l with
  | [] => []
  | r :: l' =>
      match hash_of r with
      | Some k =>
          if decide (k ∈ earlier) then dedup_from earlier l'
          else r :: dedup_from ({[k]} ∪ earlier) l'
      | None => dedup_from earlier l'
      end
  end.

Definition keys_of (l : list A) : gset hkey := list_to_set (omap hash_of l).

(** The records the extractor yields over the items of one answer, up to
    the item that raises (in the extractor, or in the membership test
    because the key of its record is unhashable). *)
Fixpoint extracted_items (items : list value) (w : World)
  : outcome unit * list A * World :=
  match items with
  | [] => (Ret (), [], w)
  | item :: rest =>
      match extract item w with
      | (Raise e, w') => (Raise e, [], w')
      | (Ret None, w') => extracted_items rest w'
      | (Ret (Some r), w') =>
          match py_hash (ident r) with
          | Raise e => (Raise e, [r], w')
          | Ret _ =>
              let '(o, s, w'') := extracted_items rest w' in (o, r :: s, w'')
          end
      end
  end.

Definition extracted_response (resp : response) (w : World)
  : outcome unit * list A * World :=
  if bool_decide (status_code resp ≠ 200%Z) then (Ret (), [], w)
  else
    match (data ← json resp; items ← items_of data; py_iter items) with
    | Raise e => (Raise e, [], w)
    | Ret items => extracted_items items w
    end.

Definition extracted_target (target : string) (w : World) : list A * World :=
  match send (request_for target) w with
  | (Raise _, w') => ([], w')
  | (Ret resp, w') =>
      let '(_, s, w'') := extracted_response resp w' in (s, w'')
  end.

Fixpoint extracted_targets (targets : list string) (w : World) : list A * World :=
  match targets with
  | [] => ([], w)
  | target :: rest =>
      let '(s, w') := extracted_target target w in
      let '(s', w'') := extracted_targets rest w' in
      (s ++ s', w'')
  end.
End Reference.

(** The records [_extract_post_data] yields during [fetch_reddit_posts]. *)
Definition reddit_extracted (self : RedditFetcher) (w : World) : list post :=
  if negb (default false (reddit_enabled (reddit_config self))) then []
  else
    (extracted_targets _extract_post_data p_id (reddit_request self)
       reddit_children (default [] (subreddits (reddit_config self))) w).1.

(** The records [_extract_video_data] yields during [fetch_youtube_videos]. *)
Definition youtube_extracted (self : YouTubeFetcher) (max_items : Z) (w : World)
  : list video :=
  let youtube_config := sources_youtube (yf_config self) in
  if negb (default false (youtube_enabled youtube_config)) then []
  else
    let terms := default [] (search_terms youtube_config) in
    (extracted_targets _extract_video_data v_videoId
       (youtube_request self max_items terms) youtube_items terms w).1.

(** The list [all_results] as it stands when a fetch reaches its sort; empty
    when the fetch returns before its loop. *)
Definition reddit_accumulated (self : RedditFetcher) (w : World) : list post :=
  if negb (default false (reddit_enabled (reddit_config self))) then []
  else
    all_results
      (reddit_collect self (default [] (subreddits (reddit_config self))) w).1.

Definition youtube_accumulated (self : YouTubeFetcher) (max_items : Z) (w : World)
  : list video :=
  let youtube_config := sources_youtube (yf_config self) in
  if negb (default false (youtube_enabled youtube_config)) then []
  else
    all_results
      (youtube_collect self max_items
         (default [] (search_terms youtube_config)) w).1.

(** The sum of the per-source counts of a snapshot. *)
Definition sum_counts (m : gmap string nat) : nat := sum_list (map_to_list m).*2.

(** A request of the token exchange, as opposed to a data request. *)
Definition is_token_request (req : request) : Prop :=
  match req with AccessToken _ _ => True | _ => False end.

(** ** Shapes of raw items *)

(** [v] is a dict that has every key of [ks]. *)
Definition has_keys (ks : list string) (v : value) : bool :=
  match v with
  | VDict d =>
      forallb (λ k, match dict_lookup k d with Some _ => true | None => false end) ks
  | _ => false
  end.

(** [v] is a dict, and [v[k]], where present, is a dict too. *)
Definition dict_or_absent (v : value) (k : string) : bool :=
  match py_getitem v k with
  | Ret (VDict _) | Raise KeyError => true
  | _ => false
  end.

(** The containers the extractors subscript are dicts. *)
Definition post_shaped (post_data : value) : bool :=
  dict_or_absent post_data "data".

Definition video_shaped (item : value) : bool :=
  dict_or_absent item "id" && dict_or_absent item "snippet".

(** The keys the extractors subscript (rather than [.get]) are all there. *)
Definition post_complete (post_data : value) : bool :=
  match py_getitem post_data "data" with
  | Ret data => has_keys ["id"; "title"; "subreddit"; "created_utc"; "permalink"] data
  | Raise _ => false
  end.

Definition video_complete (item : value) : bool :=
  match py_getitem item "id", py_getitem item "snippet" with
  | Ret id, Ret snippet =>
      has_keys ["videoId"] id
      && has_keys ["title"; "description"; "channelTitle"; "publishedAt"] snippet
  | _, _ => false
  end.

(** ** Concrete runs

    Raw items and worlds on which the definitions above are evaluated. *)

Definition raw_post (id : string) (score : Z) : value :=
  VDict [("kind", VStr "t3");
         ("data", VDict [("id", VStr id); ("title", VStr "An idea");
                         ("subreddit", VStr "ideas"); ("score", VInt score);
                         ("created_utc", VInt 1700000000);
                         ("permalink", VStr "/r/ideas/comments/x")])].

Definition raw_video (id published : string) : value :=
  VDict [("id", VDict [("kind", VStr "youtube#video"); ("videoId", VStr id)]);
         ("snippet", VDict [("title", VStr "A talk");
                            ("description", VStr "About ideas");
                            ("channelTitle", VStr "Channel");
                            ("publishedAt", VStr published)])].

Definition reddit_listing (posts : list value) : outcome response :=
  Ret {| status_code := 200;
         json := Ret (VDict [("kind", VStr "Listing");
                             ("data", VDict [("children", VList posts)])]) |}.

Definition search_results (items : list value) : outcome response :=
  Ret {| status_code := 200; json := Ret (VDict [("items", VList items)]) |}.

(** Two subreddits and two search terms; the second answer of each source
    repeats an identity key of the first, for Reddit with a higher score. *)
Definition demo_http (n : nat) (req : request) : outcome response :=
  match req with
  | AccessToken _ _ =>
      Ret {| status_code := 200;
             json := Ret (VDict [("access_token", VStr "token")]) |}
  | RedditHot _ "ideas" _ _ => reddit_listing [raw_post "1" 5; raw_post "2" 9]
  | RedditHot _ "startups" _ _ => reddit_listing [raw_post "2" 50; raw_post "3" 1]
  | YouTubeSearch _ "ideas" _ _ _ =>
      search_results [raw_video "a" "2024-01-01T00:00:00Z";
                      raw_video "b" "2024-03-01T00:00:00Z"]
  | YouTubeSearch _ "startups" _ _ _ =>
      search_results [raw_video "b" "2024-03-01T00:00:00Z";
                      raw_video "c" "2024-02-01T00:00:00Z"]
  | _ => Ret {| status_code := 404; json := Raise JSONDecodeError |}
  end.

Definition demo_clock (n : nat) : datetime :=
  {| isoformat := "2024-05-01T12:00:00"; strftime := "2024-05-01_12-00-00" |}.

Definition demo_config : Config :=
  {| run := {| out_dir := Some "data"; max_items_per_source := Some 2%Z |};
     sources_reddit :=
       {| reddit_enabled := Some true; subreddits := Some ["ideas"; "startups"] |};
     sources_youtube :=
       {| youtube_enabled := Some true;
          search_terms := Some ["ideas"; "startups"] |} |}.

Definition demo_world : World :=
  {| environ := {[ "REDDIT_CLIENT_ID" := "id"; "REDDIT_CLIENT_SECRET" := "secret";
                   "YOUTUBE_API_KEY" := "key" ]};
     config_yml := Some (Ret demo_config);
     mkdir_ok := true;
     file_write := λ _ _, Ret ();
     http := demo_http;
     clock := demo_clock;
     sent := []; ticks := 0; dirs := []; files := [] |}.

(** The same run with the Reddit credentials missing from the environment. *)
Definition demo_world_no_reddit_credentials : World :=
  {| environ := {[ "YOUTUBE_API_KEY" := "key" ]};
     config_yml := Some (Ret demo_config);
     mkdir_ok := true;
     file_write := λ _ _, Ret ();
     http := demo_http;
     clock := demo_clock;
     sent := []; ticks := 0; dirs := []; files := [] |}.

Definition demo_reddit : RedditFetcher :=
  {| rf_config := demo_config;
     reddit_config := sources_reddit demo_config;
     access_token := VStr "token" |}.

Definition demo_youtube : YouTubeFetcher :=
  {| yf_config := demo_config; api_key := "key" |}.

(** The record [_extract_post_data] builds from [raw_post id score] under
    [demo_clock]. *)
Definition demo_post (id : string) (score : Z) : post :=
  {| p_id := VStr id; p_title := VStr "An idea"; p_selftext := VStr "";
     p_subreddit := VStr "ideas"; p_author := VStr "[deleted]";
     p_score := VInt score; p_num_comments := VInt 0;
     p_created_utc := VInt 1700000000;
     p_permalink := FStr "https://www.reddit.com" (VStr "/r/ideas/comments/x");
     p_fetched_at := "2024-05-01T12:00:00" |}.

Definition demo_collector : DataCollector :=
  {| dc_config := demo_config; dc_out_dir := Join ConfigDir "data";
     youtube_fetcher := demo_youtube; reddit_fetcher := demo_reddit |}.

(** A listing child whose ["data"] is [null]. *)
Definition raw_post_null_data : value :=
  VDict [("kind", VStr "t3"); ("data", VNone)].

(** A search result with identity, title, channel and publish time, and no
    description. *)
Definition raw_video_no_description : value :=
  VDict [("id", VDict [("kind", VStr "youtube#video"); ("videoId", VStr "a")]);
         ("snippet", VDict [("title", VStr "A talk");
                            ("channelTitle", VStr "Channel");
                            ("publishedAt", VStr "2024-01-01T00:00:00Z")])].

(** ** Reference definitions for requests and effects *)

(** The data requests a fetch is due to send: one per query target, in
    order, and none when the source is not enabled. *)
Definition reddit_requests_of (self : RedditFetcher) : list request :=
  if default false (reddit_enabled (reddit_config self))
  then reddit_request self <$> default [] (subreddits (reddit_config self))
  else [].

Definition youtube_requests_of (self : YouTubeFetcher) (max_items : Z)
  : list request :=
  let youtube_config := sources_youtube (yf_config self) in
  let terms := default [] (search_terms youtube_config) in
  if default false (youtube_enabled youtube_config)
  then youtube_request self max_items terms <$> terms
  else [].

(** [w'] differs from [w] at most in the request log and in the number of
    clock readings: same environment, settings, network, clock, directories
    and files. *)
Definition only_log_and_ticks (w w' : World) : Prop :=
  environ w' = environ w
  ∧ config_yml w' = config_yml w
  ∧ mkdir_ok w' = mkdir_ok w
  ∧ file_write w' = file_write w
  ∧ http w' = http w
  ∧ clock w' = clock w
  ∧ dirs w' = dirs w
  ∧ files w' = files w.

(** [w'] differs from [w] at most in the request log, in the number of
    clock readings and in the directories made. *)
Definition files_untouched (w w' : World) : Prop :=
  environ w' = environ w
  ∧ config_yml w' = config_yml w
  ∧ mkdir_ok w' = mkdir_ok w
  ∧ file_write w' = file_write w
  ∧ http w' = http w
  ∧ clock w' = clock w
  ∧ files w' = files w.

(** Where [main] writes its snapshot, and the snapshot it writes, after a
    collection that returned [result] and left the world [w2]: the first
    clock reading stamps the snapshot, the second names the file. *)
Definition main_snapshot (c : DataCollector) (result : gmap string (list record))
    (w2 : World) : path * Snapshot :=
  (Join (dc_out_dir c) (strftime (clock w2 (S (ticks w2))) +:+ ".json"),
   output_data result (clock w2 (ticks w2))).

(** The answer to a data request is unusable: the request raised, the
    status is not 200, or the body is not JSON. *)
Definition answer_fails (answer : outcome response) : Prop :=
  match answer with
  | Raise _ => True
  | Ret resp => status_code resp ≠ 200%Z ∨ is_Ret (json resp) = false
  end.

(** The demo world with r/ideas answering 503. *)
Definition demo_world_ideas_down : World :=
  {| environ := environ demo_world;
     config_yml := config_yml demo_world;
     mkdir_ok := true;
     file_write := λ _ _, Ret ();
     http := λ n req,
       match req with
       | RedditHot _ "ideas" _ _ =>
           Ret {| status_code := 503; json := Raise JSONDecodeError |}
       | _ => demo_http n req
       end;
     clock := demo_clock;
     sent := []; ticks := 0; dirs := []; files := [] |}.

(** A listing child with the score [score], and the record
    [_extract_post_data] builds from it under [demo_clock]. *)
Definition raw_post_scored (id : string) (score : value) : value :=
  VDict [("kind", VStr "t3");
         ("data", VDict [("id", VStr id); ("title", VStr "An idea");
                         ("subreddit", VStr "ideas"); ("score", score);
                         ("created_utc", VInt 1700000000);
                         ("permalink", VStr "/r/ideas/comments/x")])].

Definition demo_post_scored (id : string) (score : value) : post :=
  {| p_id := VStr id; p_title := VStr "An idea"; p_selftext := VStr "";
     p_subreddit := VStr "ideas"; p_author := VStr "[deleted]";
     p_score := score; p_num_comments := VInt 0;
     p_created_utc := VInt 1700000000;
     p_permalink := FStr "https://www.reddit.com" (VStr "/r/ideas/comments/x");
     p_fetched_at := "2024-05-01T12:00:00" |}.

(** The demo world with r/ideas listing three posts of scores [1], [NaN]
    and [2], and r/startups listing none. *)
Definition demo_world_nan_score : World :=
  {| environ := environ demo_world;
     config_yml := config_yml demo_world;
     mkdir_ok := true;
     file_write := λ _ _, Ret ();
     http := λ n req,
       match req with
       | RedditHot _ "ideas" _ _ =>
           reddit_listing [raw_post_scored "1" (VInt 1);
                           raw_post_scored "2" (VFloat FNaN);
                           raw_post_scored "3" (VInt 2)]
       | RedditHot _ _ _ _ => reddit_listing []
       | _ => demo_http n req
       end;
     clock := demo_clock;
     sent := []; ticks := 0; dirs := []; files := [] |}.

(** The demo settings with both sources switched off. *)
Definition demo_config_all_off : Config :=
  {| run := run demo_config;
     sources_reddit :=
       {| reddit_enabled := Some false; subreddits := Some ["ideas"] |};
     sources_youtube :=
       {| youtube_enabled := None; search_terms := Some ["ideas"] |} |}.

Definition demo_world_all_off : World :=
  {| environ := environ demo_world;
     config_yml := Some (Ret demo_config_all_off);
     mkdir_ok := true;
     file_write := λ _ _, Ret ();
     http := demo_http;
     clock := demo_clock;
     sent := []; ticks := 0; dirs := []; files := [] |}.

(** * Properties *)

(** ** Comparisons *)

Lemma py_ltb_true (a b : value) : py_ltb a b = true ↔ py_lt a b = Ret true.
Proof.
  unfold py_ltb. destruct (py_lt a b) as [[]|]; split; congruence.
Qed.

Lemma py_lt_num (a b : value) (x y : num) :
  num_of a = Some x → num_of b = Some y → py_lt a b = Ret (num_ltb x y).
Proof.
  intros Hx Hy.
  destruct a, b; try discriminate; cbn [py_lt]; by rewrite Hx, Hy.
Qed.

Lemma py_lt_str (a b : value) :
  is_str a = true → is_str b = true →
  ∃ s t, a = VStr s ∧ b = VStr t ∧ py_lt a b = Ret (String.ltb s t).
Proof. destruct a, b; simpl; try discriminate. eauto. Qed.

Lemma num_ltb_asym (x y : num) : num_ltb x y = true → num_ltb y x = false.
Proof.
  destruct x as [| |p|], y as [| |q|]; simpl; try done.
  intros Hlt%bool_decide_eq_true. apply bool_decide_eq_false.
  intros Hgt. by apply (Qclt_not_le _ _ Hlt), Qclt_le_weak.
Qed.

Lemma num_ltb_ge_trans (x y z : num) :
  y ≠ NNaN →
  num_ltb x y = false → num_ltb y z = false → num_ltb x z = false.
Proof.
  destruct x as [| |p|], y as [| |q|], z as [| |r|]; simpl; try done.
  intros _ Hqp%bool_decide_eq_false Hrq%bool_decide_eq_false.
  apply bool_decide_eq_false. intros Hpr.
  apply Qcnot_lt_le in Hqp, Hrq.
  apply (Qclt_not_le _ _ Hpr). by apply Qcle_trans with q.
Qed.

Lemma string_ltb_false (x y : string) : String.ltb x y = false → String.le y x.
Proof.
  unfold String.ltb, String.le, String.leb.
  rewrite (String.compare_antisym x y).
  by destruct (String.compare y x).
Qed.

Lemma string_le_ltb (x y : string) : String.le y x → String.ltb x y = false.
Proof.
  unfold String.ltb, String.le, String.leb.
  rewrite (String.compare_antisym x y).
  by destruct (String.compare y x).
Qed.

Lemma string_ltb_asym (x y : string) :
  String.ltb x y = true → String.ltb y x = false.
Proof.
  unfold String.ltb. rewrite (String.compare_antisym y x).
  by destruct (String.compare x y).
Qed.

(** Numbers without a [NaN] are ordered consistently, and so are
    strings. *)
Lemma consistent_numbers (ks : list value) :
  Forall (λ k, is_num k = true) ks → consistent ks.
Proof.
  rewrite Forall_forall. intros Hks.
  assert (∀ a, a ∈ ks → ∃ x, num_of a = Some x ∧ x ≠ NNaN) as Hnum.
  { intros a Ha. apply Hks in Ha. unfold is_num in Ha.
    destruct (num_of a) as [[]|]; try done; eauto. }
  unfold consistent, ranked_ge. split; [|split].
  - intros a b (x & Hx & _)%Hnum (y & Hy & _)%Hnum.
    by rewrite (py_lt_num _ _ _ _ Hx Hy).
  - intros a b (x & Hx & _)%Hnum (y & Hy & _)%Hnum.
    rewrite (py_lt_num _ _ _ _ Hx Hy), (py_lt_num _ _ _ _ Hy Hx).
    intros [= Hlt]. by rewrite (num_ltb_asym _ _ Hlt).
  - intros a b c (x & Hx & _)%Hnum (y & Hy & Hnan)%Hnum (z & Hz & _)%Hnum.
    rewrite (py_lt_num _ _ _ _ Hx Hy), (py_lt_num _ _ _ _ Hy Hz),
      (py_lt_num _ _ _ _ Hx Hz).
    intros [= Hxy] [= Hyz]. by rewrite (num_ltb_ge_trans x y z).
Qed.

Lemma consistent_strings (ks : list value) :
  Forall (λ k, is_str k = true) ks → consistent ks.
Proof.
  rewrite Forall_forall. intros Hks.
  unfold consistent, ranked_ge. split; [|split].
  - intros a b Ha%Hks Hb%Hks.
    destruct (py_lt_str a b Ha Hb) as (s & t & _ & _ & ->). done.
  - intros a b Ha%Hks Hb%Hks.
    destruct (py_lt_str a b Ha Hb) as (s & t & -> & -> & ->). simpl.
    intros [= Hlt]. by rewrite (string_ltb_asym _ _ Hlt).
  - intros a b c Ha%Hks Hb%Hks Hc%Hks.
    destruct (py_lt_str a b Ha Hb) as (s & t & -> & -> & _).
    destruct (py_lt_str (VStr t) c Hb Hc) as (? & u & [= <-] & -> & _).
    simpl. intros [= Hst%string_ltb_false] [= Htu%string_ltb_false].
    f_equal. apply string_le_ltb. by transitivity t.
Qed.

Lemma consistent_subseteq (ks ks' : list value) :
  ks' ⊆ ks → consistent ks → consistent ks'.
Proof.
  intros Hsub (Hret & Hasym & Htrans). split; [|split].
  - intros a b Ha Hb. apply Hret; by apply Hsub.
  - intros a b Ha Hb. apply Hasym; by apply Hsub.
  - intros a b c Ha Hb Hc. apply Htrans; by apply Hsub.
Qed.

(** Among consistently ordered keys, "not below" is either way round. *)
Lemma consistent_not_ltb (ks : list value) (a b : value) :
  consistent ks → a ∈ ks → b ∈ ks → py_ltb a b = false → ranked_ge a b.
Proof.
  intros (Hret & _ & _) Ha Hb Hlt. specialize (Hret a b Ha Hb).
  unfold ranked_ge, py_ltb in *. by destruct (py_lt a b) as [[]|].
Qed.

Lemma consistent_ltb (ks : list value) (a b : value) :
  consistent ks → a ∈ ks → b ∈ ks → py_ltb a b = true → ranked_ge b a.
Proof.
  intros (_ & Hasym & _) Ha Hb Hlt%py_ltb_true. by apply Hasym.
Qed.

(** ** The sort and the slice *)

Section SortFacts.
Context {A : Type} (key : A → value).

Lemma insert_desc_perm (x : A) (l : list A) : insert_desc key x l ≡ₚ x :: l.
Proof.
  induction l as [|y l IH]; simpl; [done|].
  destruct (py_ltb (key x) (key y)); [|done].
  rewrite IH. apply Permutation_swap.
Qed.

Lemma sorted_desc_perm (l : list A) : sorted_desc key l ≡ₚ l.
Proof.
  induction l as [|x l IH]; simpl; [done|].
  by rewrite insert_desc_perm, IH.
Qed.

(** Insertion does not move a record past one it ties with. *)
Lemma insert_desc_tied (k : value) (x : A) (l : list A) :
  consistent (k :: key x :: (key <$> l)) →
  filter (λ r, tied k (key r)) (insert_desc key x l)
  = filter (λ r, tied k (key r)) (x :: l).
Proof.
  intros Hc. induction l as [|y l IH]; simpl; [done|].
  assert (consistent (k :: key x :: (key <$> l))) as Hc'.
  { eapply consistent_subseteq; [|exact Hc]. set_solver. }
  destruct (py_ltb (key x) (key y)) eqn:Hlt; [|done].
  rewrite (filter_cons _ y), (IH Hc'), !filter_cons.
  destruct (decide (tied k (key x))) as [[_ Hxk]|]; [|done].
  destruct (decide (tied k (key y))) as [[Hky _]|]; [|done].
  exfalso. apply py_ltb_true in Hlt.
  destruct Hc as (_ & _ & Htrans).
  assert (ranked_ge (key x) (key y)) as Hxy.
  { apply (Htrans _ k); set_solver. }
  unfold ranked_ge in Hxy. congruence.
Qed.

Lemma sorted_desc_tied (k : value) (l : list A) :
  consistent (k :: (key <$> l)) →
  filter (λ r, tied k (key r)) (sorted_desc key l)
  = filter (λ r, tied k (key r)) l.
Proof.
  intros Hc. induction l as [|x l IH]; simpl; [done|].
  assert (consistent (k :: (key <$> l))) as Hc'.
  { eapply consistent_subseteq; [|exact Hc]. set_solver. }
  rewrite insert_desc_tied.
  - by rewrite !filter_cons, (IH Hc').
  - eapply consistent_subseteq; [|exact Hc].
    intros a. rewrite !elem_of_cons, !list_elem_of_fmap.
    intros [->|[->|(r & -> & Hr)]]; [by left|right; exists x; set_solver|].
    right. exists r. split; [done|]. right.
    by rewrite <- (sorted_desc_perm l).
Qed.

Lemma insert_desc_sorted (x : A) (l : list A) :
  consistent (key x :: (key <$> l)) →
  StronglySorted (λ a b, ranked_ge (key a) (key b)) l →
  StronglySorted (λ a b, ranked_ge (key a) (key b)) (insert_desc key x l).
Proof.
  intros Hc Hs.
  induction l as [|y l IH]; simpl.
  { repeat constructor. }
  assert (consistent (key x :: (key <$> l))) as Hc'.
  { eapply consistent_subseteq; [|exact Hc]. set_solver. }
  apply StronglySorted_inv in Hs as [Hs Hyl].
  destruct (py_ltb (key x) (key y)) eqn:Hlt.
  - constructor; [by apply IH|].
    rewrite insert_desc_perm. constructor; [|done].
    eapply consistent_ltb; [exact Hc| | |done]; set_solver.
  - assert (ranked_ge (key x) (key y)) as Hxy.
    { eapply consistent_not_ltb; [exact Hc| | |done]; set_solver. }
    constructor; [by constructor|].
    constructor; [done|].
    rewrite Forall_forall in Hyl. apply Forall_forall. intros z Hz.
    destruct Hc as (_ & _ & Htrans).
    apply (Htrans _ (key y)); [set_solver|set_solver| |done|by apply Hyl].
    do 2 right. apply list_elem_of_fmap. eauto.
Qed.

Lemma sorted_desc_sorted (l : list A) :
  consistent (key <$> l) →
  StronglySorted (λ a b, ranked_ge (key a) (key b)) (sorted_desc key l).
Proof.
  intros Hc.
  induction l as [|x l IH]; simpl; [constructor|].
  assert (consistent (key <$> l)) as Hc'.
  { eapply consistent_subseteq; [|exact Hc]. set_solver. }
  apply insert_desc_sorted; [|by apply IH].
  eapply consistent_subseteq; [|exact Hc].
  intros a. rewrite !elem_of_cons, !list_elem_of_fmap.
  intros [->|(r & -> & Hr)]; [exists x; set_solver|].
  exists r. split; [done|]. right. by rewrite <- (sorted_desc_perm l).
Qed.

Lemma sorted_desc_short (l : list A) : length l < 2 → sorted_desc key l = l.
Proof. destruct l as [|x [|y l]]; simpl; [done|done|lia]. Qed.

Lemma reference_sort_reverse_consistent (l : list A) :
  consistent (key <$> l) →
  reference_sort_reverse key l = Ret (sorted_desc key l).
Proof.
  intros (Hret & _ & _). unfold reference_sort_reverse.
  destruct l as [|x [|y l]]; [done|done|].
  set (l' := x :: y :: l) in *.
  assert (forallb (λ x, forallb (λ y, is_Ret (py_lt (key x) (key y))) l') l'
          = true) as ->; [|done].
  apply forallb_forall. intros a Ha%list_elem_of_In.
  apply forallb_forall. intros b Hb%list_elem_of_In.
  apply Hret; apply list_elem_of_fmap; eauto.
Qed.

Lemma reference_sort_reverse_perm (l s : list A) :
  reference_sort_reverse key l = Ret s → s ≡ₚ l.
Proof.
  unfold reference_sort_reverse.
  destruct l as [|x [|y l]]; try by intros [= <-].
  destruct (forallb _ _); [|done].
  intros [= <-]. apply (sorted_desc_perm (x :: y :: l)).
Qed.

Lemma reference_sort_reverse_short (l : list A) :
  length l < 2 → reference_sort_reverse key l = Ret l.
Proof. destruct l as [|x [|y l]]; simpl; [done|done|lia]. Qed.
End SortFacts.

(** The reference sort meets the contract. *)
Definition reference_sort : ListSort :=
  {| list_sort_reverse := @reference_sort_reverse;
     list_sort_short := @reference_sort_reverse_short;
     list_sort_perm := @reference_sort_reverse_perm;
     list_sort_consistent := @reference_sort_reverse_consistent |}.

Lemma filter_Forall_id {A} (P : A → Prop) `{∀ x, Decision (P x)} (l : list A) :
  Forall P l → filter P l = l.
Proof.
  induction 1 as [|x l Hx Hl IH]; [done|].
  rewrite filter_cons_True by done. by f_equal.
Qed.

Lemma py_slice_to_prefix {A} (l : list A) (n : Z) : py_slice_to l n `prefix_of` l.
Proof. unfold py_slice_to. destruct (0 <=? n)%Z; apply prefix_take. Qed.

Lemma py_slice_to_length {A} (l : list A) (n : Z) :
  (0 ≤ n)%Z → (Z.of_nat (length (py_slice_to l n)) ≤ n)%Z.
Proof.
  intros Hn. unfold py_slice_to.
  destruct (Z.leb_spec 0 n); [|lia].
  rewrite length_take. lia.
Qed.

Lemma py_slice_to_nil {A} (n : Z) : py_slice_to (@nil A) n = [].
Proof. unfold py_slice_to. by destruct (0 <=? n)%Z; rewrite take_nil. Qed.
(** ** The fetch loop against its reference *)

Section LoopFacts.
Context {A : Type}.
Context (extract : value → World → outcome (option A) * World).
Context (ident : A → value).
Context (request_for : string → request).
Context (items_of : value → outcome value).

Local Abbreviation hk := (hash_of ident).
Local Abbreviation dedup := (dedup_from ident).
Local Abbreviation keys := (keys_of ident).

Lemma keys_of_nil : keys [] = ∅.
Proof. done. Qed.

Lemma keys_of_cons_Some (r : A) (l : list A) (k : hkey) :
  hk r = Some k → keys (r :: l) = {[k]} ∪ keys l.
Proof. unfold keys_of. simpl. by intros ->. Qed.

Lemma keys_of_cons_None (r : A) (l : list A) :
  hk r = None → keys (r :: l) = keys l.
Proof. unfold keys_of. simpl. by intros ->. Qed.

Lemma keys_of_app (l1 l2 : list A) :
  keys (l1 ++ l2) = keys l1 ∪ keys l2.
Proof.
  unfold keys_of. rewrite omap_app, list_to_set_app_L. done.
Qed.

Lemma dedup_from_app (E : gset hkey) (l1 l2 : list A) :
  dedup E (l1 ++ l2)
  = dedup E l1 ++ dedup (E ∪ keys l1) l2.
Proof.
  revert E. induction l1 as [|r l1 IH]; intros E; simpl.
  { by rewrite keys_of_nil, (right_id_L ∅ (∪)). }
  destruct (hk r) as [k|] eqn:Hk.
  - rewrite (keys_of_cons_Some _ _ _ Hk).
    case_decide.
    + rewrite IH. do 2 f_equal. set_solver.
    + simpl. rewrite IH. do 3 f_equal. set_solver.
  - rewrite (keys_of_cons_None _ _ Hk). apply IH.
Qed.

Lemma dedup_from_hash (E : gset hkey) (l : list A) (r : A) :
  r ∈ dedup E l → ∃ k, hk r = Some k ∧ k ∉ E.
Proof.
  revert E. induction l as [|x l IH]; intros E; simpl.
  { by intros ?%elem_of_nil. }
  destruct (hk x) as [k|] eqn:Hk; [|by apply IH].
  case_decide; [by apply IH|].
  intros [-> | Hr]%elem_of_cons; [eauto|].
  apply IH in Hr as (k' & ? & ?). exists k'. split; [done|set_solver].
Qed.

(** No two kept records have the same key. *)
Lemma dedup_from_NoDup (E : gset hkey) (l : list A) :
  NoDup (hk <$> dedup E l).
Proof.
  revert E. induction l as [|x l IH]; intros E; simpl.
  { constructor. }
  destruct (hk x) as [k|] eqn:Hk; [|by apply IH].
  case_decide; [by apply IH|].
  simpl. constructor; [|by apply IH].
  intros (r & Hr & Hin)%list_elem_of_fmap.
  apply dedup_from_hash in Hin as (k' & Hk' & Hnot).
  rewrite Hk in Hr. rewrite Hk' in Hr. set_solver.
Qed.

(** A kept record is the first of its key. *)
Lemma dedup_from_first (E : gset hkey) (l : list A) (r : A) :
  r ∈ dedup E l →
  ∃ before after, l = before ++ r :: after
    ∧ ∀ r', r' ∈ before → hk r' ≠ hk r.
Proof.
  revert E. induction l as [|x l IH]; intros E; simpl.
  { by intros ?%elem_of_nil. }
  assert (∀ E', r ∈ dedup E' l → hk x ≠ hk r →
    ∃ before after, x :: l = before ++ r :: after
      ∧ ∀ r', r' ∈ before → hk r' ≠ hk r) as Hskip.
  { intros E' Hr Hne.
    destruct (IH _ Hr) as (before & after & -> & Hb).
    exists (x :: before), after. split; [done|].
    intros r' [-> | ?]%elem_of_cons; auto. }
  destruct (hk x) as [k|] eqn:Hk.
  - case_decide as HE.
    + intros Hr. apply (Hskip E); [done|].
      apply dedup_from_hash in Hr as (k' & -> & ?). intros [= ->]. done.
    + intros [-> | Hr]%elem_of_cons.
      * exists [], l. split; [done|]. by intros ? ?%elem_of_nil.
      * apply (Hskip ({[k]} ∪ E)); [done|].
        apply dedup_from_hash in Hr as (k' & -> & ?). intros [= ->].
        set_solver.
  - intros Hr. apply (Hskip E); [done|].
    apply dedup_from_hash in Hr as (k' & -> & ?). done.
Qed.

Lemma accum_seen_eq {B C : Type} (b : B) (c : C) (l : list A) (E1 E2 : gset hkey) :
  E1 = E2 → (b, Accum l E1, c) = (b, Accum l E2, c).
Proof. by intros ->. Qed.

Lemma accum_seen_eq2 {C : Type} (c : C) (l : list A) (E1 E2 : gset hkey) :
  E1 = E2 → (Accum l E1, c) = (Accum l E2, c).
Proof. by intros ->. Qed.

Lemma accum_eta (st : accum A) :
  st = Accum (all_results st ++ dedup (seen st) [])
             (seen st ∪ keys []).
Proof.
  destruct st as [l E]. simpl.
  by rewrite app_nil_r, keys_of_nil, (right_id_L ∅ (∪)).
Qed.

(** The item loop appends, to what it starts from, the first occurrences
    among the records the extractor yields. *)
Lemma for_items_extracted (items : list value) (st : accum A) (w : World)
    (o : outcome unit) (s : list A) (w' : World) :
  extracted_items extract ident items w = (o, s, w') →
  for_items extract ident items st w
  = (o, Accum (all_results st ++ dedup (seen st) s)
              (seen st ∪ keys s), w').
Proof.
  revert st w o s w'.
  induction items as [|item rest IH]; intros st w o s w'; simpl.
  { intros [= <- <- <-]. by rewrite <- accum_eta. }
  unfold visit_item.
  destruct (extract item w) as [[[r|]|e] w1].
  - destruct (py_hash (ident r)) as [k|e] eqn:Hk.
    + assert (hk r = Some k) as Hr
        by (unfold hash_of; by rewrite Hk).
      destruct (extracted_items extract ident rest w1) as [[o1 s1] w2] eqn:He.
      intros [= <- <- <-].
      case_decide as Hin.
      * rewrite (IH _ _ _ _ _ He). simpl. rewrite Hr.
        rewrite decide_True by done.
        rewrite (keys_of_cons_Some _ _ _ Hr).
        apply accum_seen_eq. set_solver.
      * rewrite (IH _ _ _ _ _ He). simpl. rewrite Hr.
        rewrite decide_False by done.
        rewrite (keys_of_cons_Some _ _ _ Hr), <- app_assoc. simpl.
        apply accum_seen_eq. set_solver.
    + assert (hk r = None) as Hr
        by (unfold hash_of; by rewrite Hk).
      intros [= <- <- <-]. simpl. rewrite Hr.
      rewrite (keys_of_cons_None _ _ Hr). by rewrite <- accum_eta.
  - apply IH.
  - intros [= <- <- <-]. by rewrite <- accum_eta.
Qed.

Lemma read_response_extracted (resp : response) (st : accum A) (w : World)
    (o : outcome unit) (s : list A) (w' : World) :
  extracted_response extract ident items_of resp w = (o, s, w') →
  read_response extract ident items_of resp st w
  = (o, Accum (all_results st ++ dedup (seen st) s)
              (seen st ∪ keys s), w').
Proof.
  unfold extracted_response, read_response.
  case_bool_decide.
  { intros [= <- <- <-]. by rewrite <- accum_eta. }
  destruct (_ ← json resp; _) as [items|e].
  - apply for_items_extracted.
  - intros [= <- <- <-]. by rewrite <- accum_eta.
Qed.

Lemma visit_target_extracted (target : string) (st : accum A) (w : World)
    (s : list A) (w' : World) :
  extracted_target extract ident request_for items_of target w = (s, w') →
  visit_target extract ident request_for items_of target st w
  = (Accum (all_results st ++ dedup (seen st) s)
           (seen st ∪ keys s), w').
Proof.
  unfold extracted_target, visit_target.
  destruct (send (request_for target) w) as [[resp|e] w1].
  - destruct (extracted_response _ _ _ resp w1) as [[o1 s1] w2] eqn:He.
    intros [= <- <-]. by rewrite (read_response_extracted _ _ _ _ _ _ He).
  - intros [= <- <-]. by rewrite <- accum_eta.
Qed.

Lemma for_targets_extracted (targets : list string) (st : accum A) (w : World)
    (s : list A) (w' : World) :
  extracted_targets extract ident request_for items_of targets w = (s, w') →
  for_targets extract ident request_for items_of targets st w
  = (Accum (all_results st ++ dedup (seen st) s)
           (seen st ∪ keys s), w').
Proof.
  revert st w s w'.
  induction targets as [|target rest IH]; intros st w s w'; simpl.
  { intros [= <- <-]. by rewrite <- accum_eta. }
  destruct (extracted_target _ _ _ _ target w) as [s1 w1] eqn:H1.
  destruct (extracted_targets _ _ _ _ rest w1) as [s2 w2] eqn:H2.
  intros [= <- <-].
  rewrite (visit_target_extracted _ _ _ _ _ H1).
  rewrite (IH _ _ _ _ H2). simpl.
  rewrite dedup_from_app, keys_of_app, <- app_assoc.
  apply accum_seen_eq2. set_solver.
Qed.

(** From the empty accumulators the loop computes the first occurrences
    of the extracted records. *)
Lemma for_targets_from_empty (targets : list string) (w : World) :
  all_results
    (for_targets extract ident request_for items_of targets (Accum [] ∅) w).1
  = dedup ∅
      (extracted_targets extract ident request_for items_of targets w).1.
Proof.
  destruct (extracted_targets _ _ _ _ targets w) as [s w'] eqn:He.
  by rewrite (for_targets_extracted _ _ _ _ _ He).
Qed.

(** The requests of a fetch: one per target, in order, provided the
    extractor sends nothing itself. *)
Section Requests.
Hypothesis extract_sent : ∀ item w, sent (extract item w).2 = sent w.

Lemma for_items_sent (items : list value) (st : accum A) (w : World) :
  sent (for_items extract ident items st w).2 = sent w.
Proof.
  revert st w. induction items as [|item rest IH]; intros st w; simpl; [done|].
  unfold visit_item. pose proof (extract_sent item w) as Hs.
  destruct (extract item w) as [[[r|]|e] w1]; simpl in Hs.
  - destruct (py_hash (ident r)); [|done].
    case_decide; by rewrite IH.
  - by rewrite IH.
  - done.
Qed.

Lemma for_targets_sent (targets : list string) (st : accum A) (w : World) :
  sent (for_targets extract ident request_for items_of targets st w).2
  = sent w ++ (request_for <$> targets).
Proof.
  revert st w. induction targets as [|target rest IH]; intros st w; simpl.
  { by rewrite app_nil_r. }
  destruct (visit_target _ _ _ _ target st w) as [st1 w1] eqn:Hv.
  assert (sent w1 = sent w ++ [request_for target]) as Hw1.
  { unfold visit_target, send in Hv. simpl in Hv.
    destruct (http w (length (sent w)) (request_for target)) as [resp|e].
    - unfold read_response in Hv.
      case_bool_decide; [by injection Hv as <- <-|].
      destruct (_ ← json resp; _) as [items|e].
      + match type of Hv with
        | context [for_items _ _ ?i ?s ?w0] =>
            pose proof (for_items_sent i s w0) as Hs;
            destruct (for_items extract ident i s w0) as [[o2 st2] w2]
        end.
        injection Hv as <- <-. exact Hs.
      + by injection Hv as <- <-.
    - by injection Hv as <- <-. }
  by rewrite IH, Hw1, <- app_assoc.
Qed.
End Requests.
End LoopFacts.

(** ** What a fetch returns *)

Section ResultFacts.
Context {L : ListSort} {A : Type} (ident key : A → value).

Lemma slice_of_sort_elem_of (acc s : list A) (n : Z) (r : A) :
  list_sort_reverse key acc = Ret s → r ∈ py_slice_to s n → r ∈ acc.
Proof.
  intros Hp%list_sort_perm Hr.
  rewrite <- Hp. eapply elem_of_prefix; [done|apply py_slice_to_prefix].
Qed.

Lemma slice_of_sort_NoDup {B : Type} (f : A → B) (acc s : list A) (n : Z) :
  list_sort_reverse key acc = Ret s →
  NoDup (f <$> acc) → NoDup (f <$> py_slice_to s n).
Proof.
  intros Hp%list_sort_perm Hnd.
  destruct (py_slice_to_prefix s n) as [k Hk].
  rewrite <- Hp, Hk, fmap_app in Hnd. by apply NoDup_app in Hnd as [? _].
Qed.

(** Sorting and slicing the first occurrences leaves distinct keys, each
    carried by the first record of that key. *)
Lemma first_occurrences_kept (ext acc s : list A) (n : Z) :
  acc = dedup_from ident ∅ ext →
  list_sort_reverse key acc = Ret s →
  NoDup (hash_of ident <$> py_slice_to s n)
  ∧ ∀ r, r ∈ py_slice_to s n →
      is_Some (hash_of ident r)
      ∧ ∃ before after, ext = before ++ r :: after
          ∧ ∀ r', r' ∈ before → hash_of ident r' ≠ hash_of ident r.
Proof.
  intros -> Hs. split.
  - eapply slice_of_sort_NoDup; [done|]. apply dedup_from_NoDup.
  - intros r Hr. eapply slice_of_sort_elem_of in Hr; [|done].
    split.
    + apply dedup_from_hash in Hr as (k & -> & _). by eexists.
    + by eapply dedup_from_first.
Qed.

(** On fewer than two records, and on consistently ordered keys, the sort
    returns; its slice is descending, and records that tie stand as they
    stood before the sort. *)
Lemma slice_of_sort_sorted_stable (acc : list A) (n : Z) :
  length acc < 2 ∨ consistent (key <$> acc) →
  ∃ s, list_sort_reverse key acc = Ret s
    ∧ StronglySorted (λ a b, ranked_ge (key a) (key b)) (py_slice_to s n)
    ∧ ∀ r, r ∈ acc →
        filter (λ r', tied (key r) (key r')) (py_slice_to s n)
        `prefix_of` filter (λ r', tied (key r) (key r')) acc.
Proof.
  intros [Hshort | Hc].
  - exists acc. split; [by apply list_sort_short|].
    destruct (py_slice_to_prefix acc n) as [rest Hrest].
    split.
    + destruct (py_slice_to acc n) as [|x [|y l]]; [constructor| |].
      * repeat constructor.
      * rewrite Hrest in Hshort. simpl in Hshort. lia.
    + intros r _. rewrite Hrest at 2. rewrite filter_app.
      by apply prefix_app_r.
  - exists (sorted_desc key acc). split; [by apply list_sort_consistent|].
    destruct (py_slice_to_prefix (sorted_desc key acc) n) as [rest Hrest].
    split.
    + pose proof (sorted_desc_sorted key acc Hc) as Hs.
      rewrite Hrest in Hs. by apply StronglySorted_app_1_l in Hs.
    + intros r Hr. rewrite <- (sorted_desc_tied key (key r) acc).
      * rewrite Hrest at 2. rewrite filter_app. by apply prefix_app_r.
      * eapply consistent_subseteq; [|exact Hc].
        intros a [->|?]%elem_of_cons; [|done].
        apply list_elem_of_fmap. eauto.
Qed.
End ResultFacts.

Lemma reddit_accumulated_extracted (self : RedditFetcher) (w : World) :
  reddit_accumulated self w = dedup_from p_id ∅ (reddit_extracted self w).
Proof.
  unfold reddit_accumulated, reddit_extracted, reddit_collect.
  destruct (negb _); [done|]. apply for_targets_from_empty.
Qed.

Lemma youtube_accumulated_extracted (self : YouTubeFetcher) (max_items : Z)
    (w : World) :
  youtube_accumulated self max_items w
  = dedup_from v_videoId ∅ (youtube_extracted self max_items w).
Proof.
  unfold youtube_accumulated, youtube_extracted, youtube_collect.
  destruct (negb _); [done|]. apply for_targets_from_empty.
Qed.

(** A fetch is the sort of what it accumulated, sliced; the early returns
    are the sort and slice of the empty list. *)
Lemma fetch_reddit_posts_eq {L : ListSort} (self : RedditFetcher)
    (max_items : Z) (w : World) :
  (fetch_reddit_posts self max_items w).1
  = (sorted ← list_sort_reverse p_score (reddit_accumulated self w);
     mret (py_slice_to sorted max_items)).
Proof.
  unfold fetch_reddit_posts, reddit_accumulated, reddit_collect.
  destruct (negb _); simpl.
  { rewrite (list_sort_short p_score []) by (simpl; lia). simpl.
    by rewrite py_slice_to_nil. }
  case_bool_decide as Ht; simpl.
  { rewrite Ht. simpl.
    rewrite (list_sort_short p_score []) by (simpl; lia). simpl.
    by rewrite py_slice_to_nil. }
  by destruct (for_targets _ _ _ _ _ _ w) as [st w'].
Qed.

Lemma fetch_youtube_videos_eq {L : ListSort} (self : YouTubeFetcher)
    (max_items : Z) (w : World) :
  (fetch_youtube_videos self max_items w).1
  = (sorted ← list_sort_reverse v_publishedAt
                (youtube_accumulated self max_items w);
     mret (py_slice_to sorted max_items)).
Proof.
  unfold fetch_youtube_videos, youtube_accumulated, youtube_collect.
  destruct (negb _); simpl.
  { rewrite (list_sort_short v_publishedAt []) by (simpl; lia). simpl.
    by rewrite py_slice_to_nil. }
  case_bool_decide as Ht; simpl.
  { rewrite Ht. simpl.
    rewrite (list_sort_short v_publishedAt []) by (simpl; lia). simpl.
    by rewrite py_slice_to_nil. }
  by destruct (for_targets _ _ _ _ _ _ w) as [st w'].
Qed.

Lemma fetch_reddit_posts_sorted_slice {L : ListSort} (self : RedditFetcher)
    (max_items : Z) (w : World) (l : list post) :
  (fetch_reddit_posts self max_items w).1 = Ret l →
  ∃ s, list_sort_reverse p_score (reddit_accumulated self w) = Ret s
    ∧ l = py_slice_to s max_items.
Proof.
  rewrite fetch_reddit_posts_eq.
  destruct (list_sort_reverse _ _) as [s|e]; simpl; [|done].
  intros [= <-]. by exists s.
Qed.

Lemma fetch_youtube_videos_sorted_slice {L : ListSort} (self : YouTubeFetcher)
    (max_items : Z) (w : World) (l : list video) :
  (fetch_youtube_videos self max_items w).1 = Ret l →
  ∃ s, list_sort_reverse v_publishedAt (youtube_accumulated self max_items w)
       = Ret s
    ∧ l = py_slice_to s max_items.
Proof.
  rewrite fetch_youtube_videos_eq.
  destruct (list_sort_reverse _ _) as [s|e]; simpl; [|done].
  intros [= <-]. by exists s.
Qed.


(** Every key outside [earlier] that occurs in [l] is kept once. *)
Lemma dedup_from_covers {A : Type} (ident : A → value) (earlier : gset hkey)
    (l : list A) (r : A) (k : hkey) :
  r ∈ l → hash_of ident r = Some k → k ∉ earlier →
  ∃ r', r' ∈ dedup_from ident earlier l ∧ hash_of ident r' = Some k.
Proof.
  revert earlier. induction l as [|x l IH]; intros earlier Hr Hk Hnot.
  { by apply elem_of_nil in Hr. }
  simpl. apply elem_of_cons in Hr as [<- | Hr].
  { rewrite Hk, decide_False by done. exists r. split; [left|done]. }
  destruct (hash_of ident x) as [kx|] eqn:Hx; [|by apply IH].
  case_decide; [by apply IH|].
  destruct (decide (kx = k)) as [-> | Hne].
  - exists x. split; [left|done].
  - destruct (IH ({[kx]} ∪ earlier) Hr Hk) as (r' & ? & ?); [set_solver|].
    exists r'. split; [by right|done].
Qed.

(** ** The claims *)

(** C1 (dedup invariant).  In the list a fetch returns no two records share
    an identity key ([id] for Reddit, [videoId] for YouTube, compared the
    way a Python set compares them), and every returned record is the first
    record of its key among those the extractor yielded during the fetch,
    in query-target order and then item order: a later record of the same
    key is never the one returned, whatever its ranking key.  What is
    returned is all of it: the list is the slice [[:max_items]] of an
    arrangement of exactly the first occurrences, in which every hashable
    key the extractor yielded is carried by a record. *)
Theorem fetch_dedup_first_occurrence {L : ListSort}
    (reddit : RedditFetcher) (youtube : YouTubeFetcher) (max_items : Z) (w : World) :
  (∀ l, (fetch_reddit_posts reddit max_items w).1 = Ret l →
     NoDup (hash_of p_id <$> l)
     ∧ (∀ r, r ∈ l →
         is_Some (hash_of p_id r)
         ∧ ∃ before after, reddit_extracted reddit w = before ++ r :: after
             ∧ ∀ r', r' ∈ before → hash_of p_id r' ≠ hash_of p_id r)
     ∧ ∃ s, l = py_slice_to s max_items
         ∧ s ≡ₚ dedup_from p_id ∅ (reddit_extracted reddit w)
         ∧ ∀ r k, r ∈ reddit_extracted reddit w → hash_of p_id r = Some k →
             ∃ r', r' ∈ s ∧ hash_of p_id r' = Some k)
  ∧ (∀ l, (fetch_youtube_videos youtube max_items w).1 = Ret l →
     NoDup (hash_of v_videoId <$> l)
     ∧ (∀ r, r ∈ l →
         is_Some (hash_of v_videoId r)
         ∧ ∃ before after,
             youtube_extracted youtube max_items w = before ++ r :: after
             ∧ ∀ r', r' ∈ before → hash_of v_videoId r' ≠ hash_of v_videoId r)
     ∧ ∃ s, l = py_slice_to s max_items
         ∧ s ≡ₚ dedup_from v_videoId ∅ (youtube_extracted youtube max_items w)
         ∧ ∀ r k, r ∈ youtube_extracted youtube max_items w →
             hash_of v_videoId r = Some k →
             ∃ r', r' ∈ s ∧ hash_of v_videoId r' = Some k).
Proof.
  split; intros l Hl.
  - apply fetch_reddit_posts_sorted_slice in Hl as (s & Hs & ->).
    pose proof (reddit_accumulated_extracted reddit w) as Hacc.
    destruct (first_occurrences_kept p_id p_score _ _ _ max_items Hacc Hs)
      as [Hnd Hfirst].
    split; [done|]. split; [done|].
    exists s. split; [done|].
    apply list_sort_perm in Hs. rewrite Hacc in Hs. split; [done|].
    intros r k Hr Hk.
    destruct (dedup_from_covers p_id ∅ _ r k Hr Hk) as (r' & Hr' & Hk');
      [set_solver|].
    exists r'. by rewrite Hs.
  - apply fetch_youtube_videos_sorted_slice in Hl as (s & Hs & ->).
    pose proof (youtube_accumulated_extracted youtube max_items w) as Hacc.
    destruct (first_occurrences_kept v_videoId v_publishedAt _ _ _ max_items
                Hacc Hs) as [Hnd Hfirst].
    split; [done|]. split; [done|].
    exists s. split; [done|].
    apply list_sort_perm in Hs. rewrite Hacc in Hs. split; [done|].
    intros r k Hr Hk.
    destruct (dedup_from_covers v_videoId ∅ _ r k Hr Hk) as (r' & Hr' & Hk');
      [set_solver|].
    exists r'. by rewrite Hs.
Qed.

(** C2 (bound invariant).  For [max_items >= 0] the list a fetch returns has
    at most [max_items] records. *)
Theorem fetch_length_bound {L : ListSort}
    (reddit : RedditFetcher) (youtube : YouTubeFetcher) (max_items : Z) (w : World) :
  (0 ≤ max_items)%Z →
  (∀ l, (fetch_reddit_posts reddit max_items w).1 = Ret l →
     (Z.of_nat (length l) ≤ max_items)%Z)
  ∧ (∀ l, (fetch_youtube_videos youtube max_items w).1 = Ret l →
     (Z.of_nat (length l) ≤ max_items)%Z).
Proof.
  intros Hn. split; intros l Hl.
  - apply fetch_reddit_posts_sorted_slice in Hl as (s & _ & ->).
    by apply py_slice_to_length.
  - apply fetch_youtube_videos_sorted_slice in Hl as (s & _ & ->).
    by apply py_slice_to_length.
Qed.

(** C3, as the code has it.  When a fetch has accumulated fewer than two
    records, or ranking keys that [<] orders consistently (numbers without
    a [NaN] among them, or strings), it returns, and the list it returns is
    sorted descending by the ranking key ([score] for Reddit,
    [publishedAt] for YouTube): every record ranks at least as high as
    each record after it.  Records that tie stand in the order in which
    they were appended to [all_results], their first-occurrence order. *)
Theorem fetch_sorted_stable {L : ListSort}
    (reddit : RedditFetcher) (youtube : YouTubeFetcher) (max_items : Z) (w : World) :
  (length (reddit_accumulated reddit w) < 2
   ∨ consistent (p_score <$> reddit_accumulated reddit w) →
   ∃ l, (fetch_reddit_posts reddit max_items w).1 = Ret l
     ∧ StronglySorted (λ a b, ranked_ge (p_score a) (p_score b)) l
     ∧ ∀ r, r ∈ reddit_accumulated reddit w →
         filter (λ r', tied (p_score r) (p_score r')) l
         `prefix_of`
         filter (λ r', tied (p_score r) (p_score r'))
           (reddit_accumulated reddit w))
  ∧ (length (youtube_accumulated youtube max_items w) < 2
     ∨ consistent (v_publishedAt <$> youtube_accumulated youtube max_items w) →
     ∃ l, (fetch_youtube_videos youtube max_items w).1 = Ret l
       ∧ StronglySorted
           (λ a b, ranked_ge (v_publishedAt a) (v_publishedAt b)) l
       ∧ ∀ r, r ∈ youtube_accumulated youtube max_items w →
           filter (λ r', tied (v_publishedAt r) (v_publishedAt r')) l
           `prefix_of`
           filter (λ r', tied (v_publishedAt r) (v_publishedAt r'))
             (youtube_accumulated youtube max_items w)).
Proof.
  split; intros Hkeys.
  - destruct (slice_of_sort_sorted_stable p_score _ max_items Hkeys)
      as (s & Hs & Hsorted & Hstable).
    exists (py_slice_to s max_items).
    rewrite fetch_reddit_posts_eq, Hs. done.
  - destruct (slice_of_sort_sorted_stable v_publishedAt _ max_items Hkeys)
      as (s & Hs & Hsorted & Hstable).
    exists (py_slice_to s max_items).
    rewrite fetch_youtube_videos_eq, Hs. done.
Qed.

(** C3, as the claim has it, fails.  A listing with the scores [1], [NaN]
    and [2] comes back from the fetch in that order: nothing is below a
    [NaN] and a [NaN] is below nothing, so the sort leaves the three where
    they are, and the post of score [1] stands before the post of score
    [2]. *)
Lemma fetch_not_sorted_around_nan :
  (fetch_reddit_posts (L := reference_sort) demo_reddit 3
     demo_world_nan_score).1
  = Ret [demo_post_scored "1" (VInt 1); demo_post_scored "2" (VFloat FNaN);
         demo_post_scored "3" (VInt 2)]
  ∧ py_lt (VInt 1) (VInt 2) = Ret true
  ∧ ¬ StronglySorted (λ a b, ranked_ge (p_score a) (p_score b))
        [demo_post_scored "1" (VInt 1); demo_post_scored "2" (VFloat FNaN);
         demo_post_scored "3" (VInt 2)].
Proof.
  split; [by vm_compute|]. split; [done|].
  intros [_ Hfirst]%StronglySorted_inv.
  apply Forall_cons in Hfirst as [_ Hfirst].
  by apply Forall_cons in Hfirst as [Hlt _].
Qed.

(** No sort could do better on these scores: whatever [list.sort] makes of
    them, a result that keeps the ties with the [NaN] in their order is
    the list as it was, which is not descending. *)
Lemma nan_scores_defeat_every_sort {L : ListSort} (l : list post) :
  (fetch_reddit_posts demo_reddit 3 demo_world_nan_score).1 = Ret l →
  filter (λ r, tied (VFloat FNaN) (p_score r)) l
  `prefix_of`
  filter (λ r, tied (VFloat FNaN) (p_score r))
    (reddit_accumulated demo_reddit demo_world_nan_score) →
  ¬ StronglySorted (λ a b, ranked_ge (p_score a) (p_score b)) l.
Proof.
  intros (s & Hs%list_sort_perm & ->)%fetch_reddit_posts_sorted_slice.
  assert (reddit_accumulated demo_reddit demo_world_nan_score
          = [demo_post_scored "1" (VInt 1); demo_post_scored "2" (VFloat FNaN);
             demo_post_scored "3" (VInt 2)]) as Hacc
    by (vm_compute; reflexivity).
  rewrite Hacc in *.
  assert (py_slice_to s 3 = s) as ->.
  { unfold py_slice_to. simpl. apply take_ge.
    apply Permutation_length in Hs. simpl in Hs. lia. }
  assert (∀ l' : list post, l' ≡ₚ
            [demo_post_scored "1" (VInt 1); demo_post_scored "2" (VFloat FNaN);
             demo_post_scored "3" (VInt 2)] →
          filter (λ r, tied (VFloat FNaN) (p_score r)) l' = l') as Hall.
  { intros l' Hl'. apply filter_Forall_id. rewrite Hl'.
    by repeat constructor. }
  rewrite (Hall s Hs), (Hall _ (reflexivity _)).
  intros Hpre. apply prefix_length_eq in Hpre as ->.
  2: { apply Permutation_length in Hs. simpl in *. lia. }
  intros [_ Hfirst]%StronglySorted_inv.
  apply Forall_cons in Hfirst as [_ Hfirst].
  by apply Forall_cons in Hfirst as [Hlt _].
Qed.
(** The extractors touch the clock only. *)
Lemma _extract_post_data_sent (post_data : value) (w : World) :
  sent (_extract_post_data post_data w).2 = sent w.
Proof.
  unfold _extract_post_data.
  destruct (_ ← py_getitem post_data "data"; _) as [mk|[]]; done.
Qed.

Lemma _extract_video_data_sent (item : value) (w : World) :
  sent (_extract_video_data item w).2 = sent w.
Proof.
  unfold _extract_video_data.
  destruct (_ ← py_getitem item "id"; _) as [mk|[]]; done.
Qed.

(** C9 (per-query cap).  With [n > 0] search terms, an enabled
    [fetch_youtube_videos] sends exactly one search request per term, in
    the order of the terms, and each one carries
    [maxResults = max_items // n], the floor of the quotient. *)
Theorem youtube_per_query_cap {L : ListSort}
    (self : YouTubeFetcher) (max_items : Z) (w : World) (terms : list string) :
  youtube_enabled (sources_youtube (yf_config self)) = Some true →
  search_terms (sources_youtube (yf_config self)) = Some terms →
  terms ≠ [] →
  sent (fetch_youtube_videos self max_items w).2
  = sent w ++
    ((λ term, YouTubeSearch "snippet" term
                (max_items `div` Z.of_nat (length terms)) "video" (api_key self))
     <$> terms).
Proof.
  intros Hen Hterms Hne.
  unfold fetch_youtube_videos, youtube_collect. rewrite Hen, Hterms. simpl.
  rewrite bool_decide_false by done.
  pose proof (for_targets_sent _extract_video_data v_videoId
    (youtube_request self max_items terms) youtube_items
    _extract_video_data_sent terms (Accum [] ∅) w) as Hs.
  destruct (for_targets _ _ _ _ terms _ w) as [st w']. simpl in *.
  by rewrite Hs.
Qed.

(** C7 (disabled-source invariant).  The mapping [collect_all_data] returns
    has a key for a source exactly when the settings enable that source.
    An enabled source maps to the records its fetch returned, and to the
    empty list when the fetch raised; the Reddit fetch runs in the world the
    YouTube step left. *)
Theorem collect_all_data_keys {L : ListSort}
    (self : DataCollector) (w : World) :
  let max_items := default 20%Z (max_items_per_source (run (dc_config self))) in
  let youtube_on :=
    default false (youtube_enabled (sources_youtube (dc_config self))) in
  let reddit_on :=
    default false (reddit_enabled (sources_reddit (dc_config self))) in
  let youtube_run := fetch_youtube_videos (youtube_fetcher self) max_items w in
  let w1 := if youtube_on then youtube_run.2 else w in
  let reddit_run := fetch_reddit_posts (reddit_fetcher self) max_items w1 in
  let results := (collect_all_data self w).1 in
  (∀ source, is_Some (results !! source) ↔
      (source = "youtube" ∧ youtube_on = true)
      ∨ (source = "reddit" ∧ reddit_on = true))
  ∧ (youtube_on = true →
       results !! "youtube"
       = Some (match youtube_run.1 with
               | Ret l => YouTubeVideo <$> l
               | Raise _ => []
               end))
  ∧ (reddit_on = true →
       results !! "reddit"
       = Some (match reddit_run.1 with
               | Ret l => RedditPost <$> l
               | Raise _ => []
               end)).
Proof.
  intros max_items youtube_on reddit_on youtube_run w1 reddit_run results.
  subst results w1 reddit_run youtube_run. unfold collect_all_data.
  fold max_items youtube_on reddit_on.
  destruct youtube_on, reddit_on; simpl;
    repeat match goal with
    | |- context [fetch_youtube_videos ?a ?b ?c] =>
        destruct (fetch_youtube_videos a b c) as [[?|?] ?]; simpl
    | |- context [fetch_reddit_posts ?a ?b ?c] =>
        destruct (fetch_reddit_posts a b c) as [[?|?] ?]; simpl
    end;
    (split; [|split; [try done; intros _; by simplify_map_eq
                     |try done; intros _; by simplify_map_eq]]);
    intros source;
    (destruct (decide (source = "youtube")) as [->|];
     [|destruct (decide (source = "reddit")) as [->|]]);
    simplify_map_eq; rewrite ?is_Some_alt; naive_solver.
Qed.

Lemma sum_counts_fmap_length {B : Type} (m : gmap string (list B)) :
  sum_counts (length <$> m) = sum_list (length <$> (map_to_list m).*2).
Proof.
  unfold sum_counts. rewrite map_to_list_fmap.
  by rewrite <- !list_fmap_compose.
Qed.

(** C8 (metadata consistency).  [save_json] builds one snapshot and, when
    it returns, has written it, and nothing else, at the path it returns;
    when it raises it has written nothing.  In that snapshot [total_items]
    is the sum of the per-source counts, the count of every source is the
    length of its sequence in the data section, the data section is the
    mapping passed in, and the per-source counts have exactly its keys. *)
Theorem save_json_metadata
    (self : DataCollector) (result : gmap string (list record))
    (filename : option string) (w : World) :
  ∃ snapshot,
    files (save_json self result filename w).2
    = files w ++ match (save_json self result filename w).1 with
                 | Ret filepath => [(filepath, snapshot)]
                 | Raise _ => []
                 end
    ∧ total_items (metadata snapshot) = sum_counts (sources (metadata snapshot))
    ∧ (∀ source, sources (metadata snapshot) !! source
                 = length <$> data snapshot !! source)
    ∧ data snapshot = result
    ∧ dom (sources (metadata snapshot)) = dom result.
Proof.
  exists (output_data result (clock w (ticks w))).
  split.
  { unfold save_json, now. simpl.
    destruct (falsy filename); simpl; destruct (file_write _ _ _); simpl;
      by rewrite ?app_nil_r. }
  unfold output_data. simpl.
  split; [by rewrite sum_counts_fmap_length|].
  split; [intros source; by rewrite lookup_fmap|].
  split; [done|]. by rewrite dom_fmap_L.
Qed.

(** Building the Reddit fetcher writes no file and sends at most the token
    request. *)
Lemma RedditFetcher_init_world (config : Config) (w : World) :
  files (RedditFetcher_init config w).2 = files w
  ∧ dirs (RedditFetcher_init config w).2 = dirs w
  ∧ ∃ reqs, sent (RedditFetcher_init config w).2 = sent w ++ reqs
      ∧ Forall is_token_request reqs.
Proof.
  unfold RedditFetcher_init, _authenticate.
  destruct (falsy _ || falsy _); simpl.
  { do 2 (split; [done|]). exists []. by rewrite app_nil_r. }
  destruct (negb _); simpl.
  { do 2 (split; [done|]). exists []. by rewrite app_nil_r. }
  unfold send. simpl.
  match goal with
  | |- context [http w ?n ?req] => destruct (http w n req) as [resp|e]; simpl
  end.
  - case_bool_decide; simpl.
    + destruct (_ ← json resp; _); simpl;
        (do 2 (split; [done|]); eexists; split; [done|];
         by repeat constructor).
    + do 2 (split; [done|]). eexists. split; [done|]. by repeat constructor.
  - do 2 (split; [done|]). eexists. split; [done|]. by repeat constructor.
Qed.

(** What building the Reddit fetcher returns, sends and writes depends on
    the environment, the network and the request log alone. *)
Lemma RedditFetcher_init_frame (config : Config) (w w' : World) :
  environ w' = environ w → http w' = http w → sent w' = sent w →
  (RedditFetcher_init config w').1 = (RedditFetcher_init config w).1
  ∧ sent (RedditFetcher_init config w').2 = sent (RedditFetcher_init config w).2
  ∧ (files w' = files w →
     files (RedditFetcher_init config w').2
     = files (RedditFetcher_init config w).2).
Proof.
  intros Henv Hhttp Hsent.
  unfold RedditFetcher_init, _authenticate. rewrite Henv.
  destruct (falsy _ || falsy _); simpl; [done|].
  destruct (negb _); simpl; [done|].
  unfold send. simpl. rewrite Hhttp, Hsent.
  match goal with
  | |- context [http w ?n ?req] => destruct (http w n req) as [resp|e]; simpl
  end; [|done].
  case_bool_decide; simpl; [|done].
  by destruct (_ ← json resp; _).
Qed.

(** C4, as the code has it.  A construction-time failure of either fetcher
    (missing YouTube key, missing Reddit credentials, failed token exchange)
    leaves [DataCollector.__init__] as an exception: [main] returns exit
    code 1, writes no snapshot, and sends no data request for any source, at
    most the token request. *)
Theorem construction_failure_aborts_run {L : ListSort}
    (w : World) (config : Config) (e : exn) :
  config_yml w = Some (Ret config) →
  (YouTubeFetcher_init config w).1 = Raise e
  ∨ (RedditFetcher_init config w).1 = Raise e →
  (main w).1 = 1%Z
  ∧ files (main w).2 = files w
  ∧ ∃ reqs, sent (main w).2 = sent w ++ reqs ∧ Forall is_token_request reqs.
Proof.
  intros Hcfg Hfail. unfold main, DataCollector_init. rewrite Hcfg.
  destruct (out_dir (run config)) as [name|]; simpl.
  2: { repeat split; try done. exists []. by rewrite app_nil_r. }
  destruct (mkdir_ok w); simpl.
  2: { repeat split; try done. exists []. by rewrite app_nil_r. }
  unfold YouTubeFetcher_init in *. simpl.
  destruct (falsy (environ w !! "YOUTUBE_API_KEY")); simpl in *.
  { repeat split; try done. exists []. by rewrite app_nil_r. }
  destruct Hfail as [?|Hfail]; [done|].
  pose proof (RedditFetcher_init_frame config w (make_dir (Join ConfigDir name) w)
                eq_refl eq_refl eq_refl) as (Hout & Hsent & Hfiles).
  rewrite Hfail in Hout.
  pose proof (RedditFetcher_init_world config (make_dir (Join ConfigDir name) w))
    as (Hw & _ & Hreqs).
  destruct (RedditFetcher_init config (make_dir _ w)) as [[rf|e'] w2];
    simpl in *; [done|].
  by split.
Qed.

(** C4, as the claim has it, fails.  With the Reddit credentials missing
    and YouTube enabled, keyed and able to return records, [main] ends with
    exit code 1: no request was sent, so YouTube was never fetched, and no
    collection result was written. *)
Lemma construction_failure_not_isolated :
  (RedditFetcher_init demo_config demo_world_no_reddit_credentials).1
  = Raise RedditAPIError
  ∧ (YouTubeFetcher_init demo_config demo_world_no_reddit_credentials).1
    = Ret demo_youtube
  ∧ (∃ l, (fetch_youtube_videos (L := reference_sort) demo_youtube 2
             demo_world_no_reddit_credentials).1 = Ret l ∧ l ≠ [])
  ∧ (main (L := reference_sort) demo_world_no_reddit_credentials).1 = 1%Z
  ∧ sent (main (L := reference_sort) demo_world_no_reddit_credentials).2 = []
  ∧ files (main (L := reference_sort) demo_world_no_reddit_credentials).2 = [].
Proof.
  split; [by vm_compute|]. split; [by vm_compute|].
  split; [eexists; split; [by vm_compute|done]|].
  by vm_compute.
Qed.

(** ** The extractors *)

Ltac split_lookup k d :=
  let H := fresh "Hk" in destruct (dict_lookup k d) eqn:H; simpl; try done.

(** What [_extract_post_data] does on a child whose ["data"] is the dict
    [d]: the subscripted keys decide between a record and [None], the
    [.get] keys fall back on their defaults. *)
Lemma _extract_post_data_dict (post_data : value) (d : list (string * value))
    (w : World) :
  py_getitem post_data "data" = Ret (VDict d) →
  (_extract_post_data post_data w).1
  = if has_keys ["id"; "title"; "subreddit"; "created_utc"; "permalink"] (VDict d)
    then
      Ret (Some
        {| p_id := default VNone (dict_lookup "id" d);
           p_title := default VNone (dict_lookup "title" d);
           p_selftext := default (VStr "") (dict_lookup "selftext" d);
           p_subreddit := default VNone (dict_lookup "subreddit" d);
           p_author := default (VStr "[deleted]") (dict_lookup "author" d);
           p_score := default (VInt 0) (dict_lookup "score" d);
           p_num_comments := default (VInt 0) (dict_lookup "num_comments" d);
           p_created_utc := default VNone (dict_lookup "created_utc" d);
           p_permalink :=
             FStr "https://www.reddit.com"
               (default VNone (dict_lookup "permalink" d));
           p_fetched_at := isoformat (clock w (ticks w)) |})
    else Ret None.
Proof.
  intros Hdata. unfold _extract_post_data. rewrite Hdata. simpl.
  split_lookup "id" d. split_lookup "title" d. split_lookup "subreddit" d.
  split_lookup "created_utc" d. split_lookup "permalink" d.
Qed.

(** What [_extract_video_data] does on an item whose ["id"] and
    ["snippet"] are the dicts [i] and [s]. *)
Lemma _extract_video_data_dict (item : value) (i s : list (string * value))
    (w : World) :
  py_getitem item "id" = Ret (VDict i) →
  py_getitem item "snippet" = Ret (VDict s) →
  (_extract_video_data item w).1
  = if has_keys ["videoId"] (VDict i)
       && has_keys ["title"; "description"; "channelTitle"; "publishedAt"] (VDict s)
    then
      Ret (Some
        {| v_videoId := default VNone (dict_lookup "videoId" i);
           v_title := default VNone (dict_lookup "title" s);
           v_description := default VNone (dict_lookup "description" s);
           v_channelTitle := default VNone (dict_lookup "channelTitle" s);
           v_publishedAt := default VNone (dict_lookup "publishedAt" s);
           v_url :=
             FStr "https://www.youtube.com/watch?v="
               (default VNone (dict_lookup "videoId" i));
           v_fetched_at := isoformat (clock w (ticks w)) |})
    else Ret None.
Proof.
  intros Hid Hsnippet. unfold _extract_video_data. rewrite Hid, Hsnippet. simpl.
  split_lookup "videoId" i. split_lookup "title" s. split_lookup "description" s.
  split_lookup "channelTitle" s. split_lookup "publishedAt" s.
Qed.

Ltac close_extractor_case :=
  simpl;
  split;
    [ let e := fresh "e" in let He := fresh "He" in
      intros e He; try discriminate He; injection He as <-; by split
    | let Hs := fresh "Hs" in
      intros Hs; try discriminate Hs; simpl; eauto ].

(** C5, as the code has it.  The extractors catch [KeyError] and nothing
    else.  On a raw item that is a dict whose subscripted containers
    (["data"]; ["id"], ["snippet"]) are dicts where present, an extractor
    does not raise: it returns a record when every subscripted key is
    there and the absent result otherwise.  The one exception an extractor
    can raise is [TypeError], and only on a raw item that is not of that
    shape. *)
Theorem extractors_raise_only_on_non_dict (item : value) (w : World) :
  ((∀ e, (_extract_post_data item w).1 = Raise e →
      e = TypeError ∧ post_shaped item = false)
   ∧ (post_shaped item = true →
      if post_complete item
      then ∃ p, (_extract_post_data item w).1 = Ret (Some p)
      else (_extract_post_data item w).1 = Ret None))
  ∧ ((∀ e, (_extract_video_data item w).1 = Raise e →
      e = TypeError ∧ video_shaped item = false)
   ∧ (video_shaped item = true →
      if video_complete item
      then ∃ v, (_extract_video_data item w).1 = Ret (Some v)
      else (_extract_video_data item w).1 = Ret None)).
Proof.
  split.
  - unfold _extract_post_data, post_shaped, post_complete, dict_or_absent.
    destruct item as [|?|?|?|?|?|d]; try close_extractor_case.
    simpl. destruct (dict_lookup "data" d) as [[|?|?|?|?|?|d']|];
      try close_extractor_case.
    simpl.
    split_lookup "id" d'; try close_extractor_case.
    split_lookup "title" d'; try close_extractor_case.
    split_lookup "subreddit" d'; try close_extractor_case.
    split_lookup "created_utc" d'; try close_extractor_case.
    split_lookup "permalink" d'; close_extractor_case.
  - unfold _extract_video_data, video_shaped, video_complete, dict_or_absent.
    destruct item as [|?|?|?|?|?|d]; try close_extractor_case.
    simpl. destruct (dict_lookup "id" d) as [[|?|?|?|?|?|i]|];
      try (destruct (dict_lookup "snippet" d) as [[|?|?|?|?|?|sn]|];
           close_extractor_case).
    simpl.
    split_lookup "videoId" i;
      try (destruct (dict_lookup "snippet" d) as [[|?|?|?|?|?|sn]|];
           close_extractor_case).
    destruct (dict_lookup "snippet" d) as [[|?|?|?|?|?|sn]|];
      try close_extractor_case.
    simpl.
    split_lookup "title" sn; try close_extractor_case.
    split_lookup "description" sn; try close_extractor_case.
    split_lookup "channelTitle" sn; try close_extractor_case.
    split_lookup "publishedAt" sn; close_extractor_case.
Qed.

(** C5, as the claim has it, fails: a listing child whose ["data"] is
    [null], and a search result whose ["id"] is a plain string, make the
    extractors raise [TypeError]. *)
Lemma extractors_raise_type_error :
  (_extract_post_data raw_post_null_data demo_world).1 = Raise TypeError
  ∧ (_extract_video_data
       (VDict [("id", VStr "a");
               ("snippet", VDict [("title", VStr "A talk");
                                  ("description", VStr "About ideas");
                                  ("channelTitle", VStr "Channel");
                                  ("publishedAt", VStr "2024-01-01T00:00:00Z")])])
       demo_world).1 = Raise TypeError.
Proof. split; reflexivity. Qed.

Lemma _extract_video_data_complete (item : value) (w : World) :
  (∃ v, (_extract_video_data item w).1 = Ret (Some v))
  ↔ video_complete item = true.
Proof.
  unfold video_complete.
  destruct (py_getitem item "id") as [id|e] eqn:Hid.
  2: { unfold _extract_video_data. rewrite Hid. simpl.
       split; [|done]. intros [v Hv]. by destruct e. }
  destruct id as [|?|?|?|?|?|i];
    try (unfold _extract_video_data; rewrite Hid; simpl;
         destruct (py_getitem item "snippet");
         (split; [by intros [v Hv]|done])).
  destruct (py_getitem item "snippet") as [snippet|e] eqn:Hsn.
  2: { unfold _extract_video_data. rewrite Hid, Hsn. simpl.
       split; [|done]. intros [v Hv].
       destruct (dict_lookup "videoId" i); simpl in Hv; [by destruct e|done]. }
  destruct snippet as [|?|?|?|?|?|sn];
    try (unfold _extract_video_data; rewrite Hid, Hsn; simpl;
         rewrite andb_false_r;
         (split; [|done]); intros [v Hv];
         destruct (dict_lookup "videoId" i); simpl in Hv; done).
  rewrite (_extract_video_data_dict _ _ _ _ Hid Hsn).
  destruct (has_keys _ _ && has_keys _ _); split;
    first [done | by eauto | by intros [v Hv]].
Qed.

(** C6, as the code has it.  The Reddit extractor, given a child whose
    ["data"] dict has the subscripted keys (id, title, subreddit,
    created_utc, permalink), returns a record whether or not the optional
    keys are there: an absent [selftext] becomes [""], an absent [author]
    ["[deleted]"], an absent [score] or [num_comments] [0].  The YouTube
    extractor has no optional key: it returns a record exactly when
    [videoId], [title], [description], [channelTitle] and [publishedAt] are
    all there, so an item without [description] yields no record. *)
Theorem extractor_optional_defaults (item : value) (w : World) :
  (∀ d, py_getitem item "data" = Ret (VDict d) →
     has_keys ["id"; "title"; "subreddit"; "created_utc"; "permalink"] (VDict d)
     = true →
     ∃ p, (_extract_post_data item w).1 = Ret (Some p)
       ∧ p_selftext p = default (VStr "") (dict_lookup "selftext" d)
       ∧ p_author p = default (VStr "[deleted]") (dict_lookup "author" d)
       ∧ p_score p = default (VInt 0) (dict_lookup "score" d)
       ∧ p_num_comments p = default (VInt 0) (dict_lookup "num_comments" d))
  ∧ ((∃ v, (_extract_video_data item w).1 = Ret (Some v))
     ↔ video_complete item = true)
  ∧ (∀ s, py_getitem item "snippet" = Ret (VDict s) →
     dict_lookup "description" s = None →
     ∀ v, (_extract_video_data item w).1 ≠ Ret (Some v)).
Proof.
  split; [|split].
  - intros d Hdata Hkeys.
    rewrite (_extract_post_data_dict _ _ _ Hdata), Hkeys.
    eexists. split; [done|]. by simpl.
  - apply _extract_video_data_complete.
  - intros s Hsn Hdesc v Hv.
    assert (video_complete item = true) as Hc
      by (apply (_extract_video_data_complete item w); eauto).
    unfold video_complete in Hc. rewrite Hsn in Hc.
    destruct (py_getitem item "id"); [|done].
    apply andb_true_iff in Hc as [_ Hc]. simpl in Hc.
    rewrite Hdesc in Hc. by destruct (dict_lookup "title" s).
Qed.

(** C6, as the claim has it, fails for the YouTube extractor: a search
    result that has its identity, title, channel and publish time, and lacks
    only the description (its body text), yields the absent result. *)
Lemma video_without_description_is_dropped :
  (∃ id snippet,
     py_getitem raw_video_no_description "id" = Ret id
     ∧ has_keys ["videoId"] id = true
     ∧ py_getitem raw_video_no_description "snippet" = Ret snippet
     ∧ has_keys ["title"; "channelTitle"; "publishedAt"] snippet = true
     ∧ has_keys ["description"] snippet = false)
  ∧ (_extract_video_data raw_video_no_description demo_world).1 = Ret None.
Proof. split; [do 2 eexists; repeat split; reflexivity|reflexivity]. Qed.

(** The fetches return whenever the ranking keys they sort are numbers
    without a [NaN] (Reddit) or strings (YouTube). *)
Lemma fetch_reddit_posts_returns {L : ListSort} (self : RedditFetcher)
    (max_items : Z) (w : World) :
  Forall (λ r, is_num (p_score r) = true) (reddit_accumulated self w) →
  ∃ l, (fetch_reddit_posts self max_items w).1 = Ret l.
Proof.
  intros Hnum. rewrite fetch_reddit_posts_eq, list_sort_consistent.
  - by eexists.
  - apply consistent_numbers. by apply Forall_fmap.
Qed.

Lemma fetch_youtube_videos_returns {L : ListSort} (self : YouTubeFetcher)
    (max_items : Z) (w : World) :
  Forall (λ r, is_str (v_publishedAt r) = true)
    (youtube_accumulated self max_items w) →
  ∃ l, (fetch_youtube_videos self max_items w).1 = Ret l.
Proof.
  intros Hstr. rewrite fetch_youtube_videos_eq, list_sort_consistent.
  - by eexists.
  - apply consistent_strings. by apply Forall_fmap.
Qed.


(** C10 (dedup state is per call).  Each fetch enters its loop with an
    empty [all_results] and an empty seen set.  So in the world an earlier
    fetch leaves behind, every hashable identity key among the records the
    extractor yields is represented in [all_results], whatever the earlier
    fetch returned; and two successive fetches on one fetcher do return
    records of the same keys. *)
Theorem dedup_state_is_per_call {L : ListSort} :
  (∀ (self : RedditFetcher) (targets : list string) (w : World),
     reddit_collect self targets w
     = for_targets _extract_post_data p_id (reddit_request self) reddit_children
         targets (Accum [] ∅) w)
  ∧ (∀ (self : YouTubeFetcher) (max_items : Z) (terms : list string) (w : World),
     youtube_collect self max_items terms w
     = for_targets _extract_video_data v_videoId
         (youtube_request self max_items terms) youtube_items
         terms (Accum [] ∅) w)
  ∧ (∀ (self : RedditFetcher) (m1 : Z) (w : World) (r : post) (k : hkey),
     let w1 := (fetch_reddit_posts self m1 w).2 in
     r ∈ reddit_extracted self w1 → hash_of p_id r = Some k →
     ∃ r', r' ∈ reddit_accumulated self w1 ∧ hash_of p_id r' = Some k)
  ∧ (∀ (self : YouTubeFetcher) (m1 m2 : Z) (w : World) (r : video) (k : hkey),
     let w1 := (fetch_youtube_videos self m1 w).2 in
     r ∈ youtube_extracted self m2 w1 → hash_of v_videoId r = Some k →
     ∃ r', r' ∈ youtube_accumulated self m2 w1 ∧ hash_of v_videoId r' = Some k)
  ∧ (let first := fetch_reddit_posts (L := reference_sort) demo_reddit 2 demo_world in
     let second := fetch_reddit_posts (L := reference_sort) demo_reddit 2 first.2 in
     ∃ l1 l2, first.1 = Ret l1 ∧ second.1 = Ret l2
       ∧ l1 ≠ [] ∧ p_id <$> l1 = p_id <$> l2).
Proof.
  split; [done|]. split; [done|]. split; [|split].
  - intros self m1 w r k w1 Hr Hk.
    rewrite reddit_accumulated_extracted.
    eapply dedup_from_covers; [done..|set_solver].
  - intros self m1 m2 w r k w1 Hr Hk.
    rewrite youtube_accumulated_extracted.
    eapply dedup_from_covers; [done..|set_solver].
  - do 2 eexists. split; [by vm_compute|]. split; [by vm_compute|]. done.
Qed.

(** ** The claims on the concrete runs *)

Lemma fetch_dedup_first_occurrence_witness :
  ∃ posts videos,
    (fetch_reddit_posts (L := reference_sort) demo_reddit 2 demo_world).1 = Ret posts
    ∧ (fetch_youtube_videos (L := reference_sort) demo_youtube 2 demo_world).1 = Ret videos
    ∧ NoDup (hash_of p_id <$> posts)
    ∧ NoDup (hash_of v_videoId <$> videos).
Proof.
  destruct (fetch_dedup_first_occurrence (L := reference_sort) demo_reddit demo_youtube 2 demo_world)
    as [Hreddit Hyoutube].
  eexists _, _.
  split; [vm_compute; reflexivity|]. split; [vm_compute; reflexivity|].
  split.
  - refine (proj1 (Hreddit _ _)). vm_compute; reflexivity.
  - refine (proj1 (Hyoutube _ _)). vm_compute; reflexivity.
Defined.

Lemma fetch_length_bound_witness :
  ∃ posts videos,
    (fetch_reddit_posts (L := reference_sort) demo_reddit 2 demo_world).1 = Ret posts
    ∧ (fetch_youtube_videos (L := reference_sort) demo_youtube 2 demo_world).1 = Ret videos
    ∧ (Z.of_nat (length posts) ≤ 2)%Z
    ∧ (Z.of_nat (length videos) ≤ 2)%Z.
Proof.
  destruct (fetch_length_bound (L := reference_sort) demo_reddit demo_youtube 2 demo_world)
    as [Hreddit Hyoutube]; [lia|].
  eexists _, _.
  split; [vm_compute; reflexivity|]. split; [vm_compute; reflexivity|].
  split.
  - apply Hreddit. vm_compute; reflexivity.
  - apply Hyoutube. vm_compute; reflexivity.
Defined.

Lemma fetch_sorted_stable_witness :
  ∃ posts videos,
    (fetch_reddit_posts (L := reference_sort) demo_reddit 2 demo_world).1 = Ret posts
    ∧ (fetch_youtube_videos (L := reference_sort) demo_youtube 2 demo_world).1 = Ret videos
    ∧ StronglySorted (λ a b, ranked_ge (p_score a) (p_score b)) posts
    ∧ StronglySorted (λ a b, ranked_ge (v_publishedAt a) (v_publishedAt b)) videos.
Proof.
  destruct (fetch_sorted_stable (L := reference_sort) demo_reddit demo_youtube 2 demo_world)
    as [Hreddit Hyoutube].
  destruct Hreddit as (posts & Hposts & Hsorted & _).
  { right. apply consistent_numbers.
    assert (reddit_accumulated demo_reddit demo_world
            = [demo_post "1" 5; demo_post "2" 9; demo_post "3" 1]) as ->
      by (vm_compute; reflexivity).
    by repeat constructor. }
  destruct Hyoutube as (videos & Hvideos & Hsorted' & _).
  { right. apply consistent_strings.
    assert (v_publishedAt <$> youtube_accumulated demo_youtube 2 demo_world
            = [VStr "2024-01-01T00:00:00Z"; VStr "2024-03-01T00:00:00Z";
               VStr "2024-02-01T00:00:00Z"]) as ->
      by (vm_compute; reflexivity).
    by repeat constructor. }
  by exists posts, videos.
Defined.

Lemma construction_failure_aborts_run_witness :
  (main (L := reference_sort) demo_world_no_reddit_credentials).1 = 1%Z
  ∧ files (main (L := reference_sort) demo_world_no_reddit_credentials).2
    = files demo_world_no_reddit_credentials.
Proof.
  destruct (construction_failure_aborts_run (L := reference_sort) demo_world_no_reddit_credentials
              demo_config RedditAPIError) as (Hcode & Hfiles & _).
  - reflexivity.
  - right. vm_compute; reflexivity.
  - split; [exact Hcode|exact Hfiles].
Defined.

Lemma extractors_raise_only_on_non_dict_witness :
  ∃ p, (_extract_post_data (raw_post "1" 5) demo_world).1 = Ret (Some p).
Proof.
  destruct (extractors_raise_only_on_non_dict (raw_post "1" 5) demo_world)
    as [[_ Hpost] _].
  apply Hpost. reflexivity.
Defined.

Lemma extractor_optional_defaults_witness :
  ∃ p, (_extract_post_data (raw_post "1" 5) demo_world).1 = Ret (Some p)
    ∧ p_selftext p = VStr ""
    ∧ p_author p = VStr "[deleted]"
    ∧ p_score p = VInt 5
    ∧ p_num_comments p = VInt 0.
Proof.
  destruct (extractor_optional_defaults (raw_post "1" 5) demo_world)
    as [Hpost _].
  apply (Hpost [("id", VStr "1"); ("title", VStr "An idea");
                ("subreddit", VStr "ideas"); ("score", VInt 5);
                ("created_utc", VInt 1700000000);
                ("permalink", VStr "/r/ideas/comments/x")]);
    reflexivity.
Defined.

Lemma collect_all_data_keys_witness :
  (collect_all_data (L := reference_sort) demo_collector demo_world).1 !! "youtube"
  = Some (match (fetch_youtube_videos (L := reference_sort) demo_youtube 2 demo_world).1 with
          | Ret l => YouTubeVideo <$> l
          | Raise _ => []
          end).
Proof.
  destruct (collect_all_data_keys (L := reference_sort) demo_collector demo_world) as (_ & Hyoutube & _).
  apply Hyoutube. reflexivity.
Defined.

Lemma youtube_per_query_cap_witness :
  sent (fetch_youtube_videos (L := reference_sort) demo_youtube 2 demo_world).2
  = [YouTubeSearch "snippet" "ideas" 1 "video" "key";
     YouTubeSearch "snippet" "startups" 1 "video" "key"].
Proof.
  rewrite (youtube_per_query_cap (L := reference_sort) demo_youtube 2 demo_world ["ideas"; "startups"]).
  - reflexivity.
  - reflexivity.
  - reflexivity.
  - discriminate.
Defined.

Lemma dedup_state_is_per_call_witness :
  ∃ r', r' ∈ reddit_accumulated demo_reddit
               (fetch_reddit_posts (L := reference_sort) demo_reddit 2 demo_world).2
    ∧ hash_of p_id r' = Some (HStr "2").
Proof.
  destruct (dedup_state_is_per_call (L := reference_sort))
    as (_ & _ & Hreddit & _).
  apply (Hreddit demo_reddit 2%Z demo_world (demo_post "2" 9) (HStr "2")).
  - vm_compute. right. left.
  - reflexivity.
Defined.

(** ** Further concrete runs *)

(** The demo fetch keeps id 2 with the score of its first occurrence (9),
    not the 50 of the later one, and cuts id 3 off. *)
Example demo_reddit_fetch :
  (fetch_reddit_posts (L := reference_sort) demo_reddit 2 demo_world).1
  = Ret [demo_post "2" 9; demo_post "1" 5].
Proof. by vm_compute. Qed.

(** Records of equal score keep their order through the sort. *)
Example sort_is_stable :
  reference_sort_reverse p_score
    [demo_post "a" 5; demo_post "b" 9; demo_post "c" 5]
  = Ret [demo_post "b" 9; demo_post "a" 5; demo_post "c" 5].
Proof. by vm_compute. Qed.

(** Numbers rank across bool, int and float, and ties keep their order;
    lists rank lexicographically. *)
Example sort_of_mixed_numbers :
  reference_sort_reverse (λ v : value, v)
    [VInt 1; VFloat (FFin (Q2Qc (QArith_base.Qmake 5 2))); VBool true; VFloat (FFin (Qc_of_Z 1));
     VInt 3]
  = Ret [VInt 3; VFloat (FFin (Q2Qc (QArith_base.Qmake 5 2))); VInt 1; VBool true;
         VFloat (FFin (Qc_of_Z 1))].
Proof. by vm_compute. Qed.

Example sort_of_lists :
  reference_sort_reverse (λ v : value, v) [VList [VInt 1]; VList [VInt 2]]
  = Ret [VList [VInt 2]; VList [VInt 1]].
Proof. by vm_compute. Qed.

(** Scores that Python cannot compare make the sort, and with it the fetch,
    raise. *)
Example sort_raises_on_mixed_keys :
  reference_sort_reverse (λ v : value, v) [VInt 1; VNone] = Raise TypeError.
Proof. by vm_compute. Qed.

(** A [NaN] is below nothing and nothing is below it: it ties with every
    number, and the numbers around it stay where they are. *)
Example sort_around_nan :
  reference_sort_reverse (λ v : value, v) [VInt 1; VFloat FNaN; VInt 2]
  = Ret [VInt 1; VFloat FNaN; VInt 2]
  ∧ ¬ consistent [VInt 1; VFloat FNaN; VInt 2].
Proof.
  split; [by vm_compute|].
  intros (_ & _ & Htrans).
  by specialize (Htrans (VInt 1) (VFloat FNaN) (VInt 2)
    ltac:(set_solver) ltac:(set_solver) ltac:(set_solver) eq_refl eq_refl).
Qed.

(** A negative bound cuts from the end. *)
Example slice_negative : py_slice_to [1; 2; 3] (-1) = [1; 2].
Proof. reflexivity. Qed.

(** A child that makes the extractor raise ends the item loop of its
    listing: the children after it are not read, those before it stay. *)
Example malformed_child_ends_its_listing :
  (for_items _extract_post_data p_id
     [raw_post "1" 5; raw_post_null_data; raw_post "2" 9]
     (Accum [] ∅) demo_world).1
  = (Raise TypeError, Accum [demo_post "1" 5] {[HStr "1"]}).
Proof. by vm_compute. Qed.

(** The whole demo run: exit code 0, the token request followed by the
    data requests of YouTube and then Reddit, and one snapshot with two
    records for each source. *)
Example demo_main :
  (main (L := reference_sort) demo_world).1 = 0%Z
  ∧ sent (main (L := reference_sort) demo_world).2
    = [AccessToken "id" "secret";
       YouTubeSearch "snippet" "ideas" 1 "video" "key";
       YouTubeSearch "snippet" "startups" 1 "video" "key";
       RedditHot (FStr "Bearer " (VStr "token")) "ideas" 25 1;
       RedditHot (FStr "Bearer " (VStr "token")) "startups" 25 1]
  ∧ (λ f, (f.1, total_items (metadata f.2), map_to_list (sources (metadata f.2))))
      <$> files (main (L := reference_sort) demo_world).2
    = [(Join (Join ConfigDir "data") "2024-05-01_12-00-00.json", 4,
        [("youtube", 2); ("reddit", 2)])]
  ∧ dirs (main (L := reference_sort) demo_world).2 = [Join ConfigDir "data"].
Proof. by vm_compute. Qed.

(** * Further properties of the code *)

(** ** What a run leaves untouched *)

Lemma only_log_and_ticks_refl (w : World) : only_log_and_ticks w w.
Proof. by repeat split. Qed.

Lemma only_log_and_ticks_trans (w1 w2 w3 : World) :
  only_log_and_ticks w1 w2 → only_log_and_ticks w2 w3 →
  only_log_and_ticks w1 w3.
Proof.
  intros (?&?&?&?&?&?&?&?) (?&?&?&?&?&?&?&?). repeat split; congruence.
Qed.

Lemma send_only_log (req : request) (w : World) :
  only_log_and_ticks w (send req w).2.
Proof. by repeat split. Qed.

Lemma now_only_ticks (w : World) : only_log_and_ticks w (now w).2.
Proof. by repeat split. Qed.

Lemma _extract_post_data_frame (post_data : value) (w : World) :
  only_log_and_ticks w (_extract_post_data post_data w).2.
Proof.
  unfold _extract_post_data.
  destruct (_ ← py_getitem post_data "data"; _) as [mk|[]];
    by repeat split.
Qed.

Lemma _extract_video_data_frame (item : value) (w : World) :
  only_log_and_ticks w (_extract_video_data item w).2.
Proof.
  unfold _extract_video_data.
  destruct (_ ← py_getitem item "id"; _) as [mk|[]]; by repeat split.
Qed.

Section LoopFrame.
Context {A : Type}.
Context (extract : value → World → outcome (option A) * World).
Context (ident : A → value).
Context (request_for : string → request).
Context (items_of : value → outcome value).
Hypothesis extract_frame : ∀ item w, only_log_and_ticks w (extract item w).2.

Lemma for_items_frame (items : list value) (st : accum A) (w : World) :
  only_log_and_ticks w (for_items extract ident items st w).2.
Proof.
  revert st w. induction items as [|item rest IH]; intros st w; simpl.
  { apply only_log_and_ticks_refl. }
  unfold visit_item. pose proof (extract_frame item w) as Hf.
  destruct (extract item w) as [[[r|]|e] w1]; simpl in Hf.
  - destruct (py_hash (ident r)); [|done].
    case_decide; eapply only_log_and_ticks_trans; eauto.
  - eapply only_log_and_ticks_trans; eauto.
  - done.
Qed.

Lemma visit_target_frame (target : string) (st : accum A) (w : World) :
  only_log_and_ticks w
    (visit_target extract ident request_for items_of target st w).2.
Proof.
  unfold visit_target.
  pose proof (send_only_log (request_for target) w) as Hs.
  destruct (send (request_for target) w) as [[resp|e] w1]; simpl in Hs; [|done].
  unfold read_response.
  case_bool_decide; [done|].
  destruct (_ ← json resp; _) as [items|e]; [|done].
  pose proof (for_items_frame items st w1) as Hf.
  destruct (for_items extract ident items st w1) as [[o st'] w2].
  eapply only_log_and_ticks_trans; eauto.
Qed.

Lemma for_targets_frame (targets : list string) (st : accum A) (w : World) :
  only_log_and_ticks w
    (for_targets extract ident request_for items_of targets st w).2.
Proof.
  revert st w. induction targets as [|target rest IH]; intros st w; simpl.
  { apply only_log_and_ticks_refl. }
  pose proof (visit_target_frame target st w) as Hv.
  destruct (visit_target _ _ _ _ target st w) as [st1 w1].
  eapply only_log_and_ticks_trans; eauto.
Qed.
End LoopFrame.

Lemma fetch_reddit_posts_frame {L : ListSort} (self : RedditFetcher) (max_items : Z) (w : World) :
  only_log_and_ticks w (fetch_reddit_posts self max_items w).2.
Proof.
  unfold fetch_reddit_posts, reddit_collect.
  destruct (negb _); [apply only_log_and_ticks_refl|].
  case_bool_decide; [apply only_log_and_ticks_refl|].
  match goal with
  | |- context [for_targets ?e ?i ?r ?it ?ts ?st w] =>
      pose proof (for_targets_frame e i r it _extract_post_data_frame ts st w)
        as Hf;
      destruct (for_targets e i r it ts st w) as [st' w']
  end.
  done.
Qed.

Lemma fetch_youtube_videos_frame {L : ListSort} (self : YouTubeFetcher) (max_items : Z)
    (w : World) :
  only_log_and_ticks w (fetch_youtube_videos self max_items w).2.
Proof.
  unfold fetch_youtube_videos, youtube_collect.
  destruct (negb _); [apply only_log_and_ticks_refl|].
  case_bool_decide; [apply only_log_and_ticks_refl|].
  match goal with
  | |- context [for_targets ?e ?i ?r ?it ?ts ?st w] =>
      pose proof (for_targets_frame e i r it _extract_video_data_frame ts st w)
        as Hf;
      destruct (for_targets e i r it ts st w) as [st' w']
  end.
  done.
Qed.

Lemma fetch_reddit_posts_sent {L : ListSort} (self : RedditFetcher) (max_items : Z) (w : World) :
  sent (fetch_reddit_posts self max_items w).2
  = sent w ++ reddit_requests_of self.
Proof.
  unfold fetch_reddit_posts, reddit_requests_of, reddit_collect.
  destruct (default false _); simpl; [|by rewrite app_nil_r].
  case_bool_decide as Ht; [by rewrite Ht, app_nil_r|].
  match goal with
  | |- context [for_targets ?e ?i ?r ?it ?ts ?st w] =>
      pose proof (for_targets_sent e i r it _extract_post_data_sent ts st w)
        as Hs;
      destruct (for_targets e i r it ts st w) as [st' w']
  end.
  done.
Qed.

Lemma fetch_youtube_videos_sent {L : ListSort} (self : YouTubeFetcher) (max_items : Z)
    (w : World) :
  sent (fetch_youtube_videos self max_items w).2
  = sent w ++ youtube_requests_of self max_items.
Proof.
  unfold fetch_youtube_videos, youtube_requests_of, youtube_collect.
  destruct (default false _); simpl; [|by rewrite app_nil_r].
  case_bool_decide as Ht; [by rewrite Ht, app_nil_r|].
  match goal with
  | |- context [for_targets ?e ?i ?r ?it ?ts ?st w] =>
      pose proof (for_targets_sent e i r it _extract_video_data_sent ts st w)
        as Hs;
      destruct (for_targets e i r it ts st w) as [st' w']
  end.
  done.
Qed.

(** ** Requests and failures of a fetch *)

(** X1.  An enabled [fetch_reddit_posts] sends one request per configured
    subreddit, in order, each for the hot listing with [limit = 25] and
    [raw_json = 1] under the session's bearer token, whatever the answers
    are. *)
Theorem reddit_fetch_requests {L : ListSort} (self : RedditFetcher) (max_items : Z) (w : World) :
  default false (reddit_enabled (reddit_config self)) = true →
  sent (fetch_reddit_posts self max_items w).2
  = sent w ++
    ((λ subreddit, RedditHot (FStr "Bearer " (access_token self)) subreddit 25 1)
     <$> default [] (subreddits (reddit_config self))).
Proof.
  intros Hen. rewrite fetch_reddit_posts_sent.
  unfold reddit_requests_of. by rewrite Hen.
Qed.

Lemma reddit_fetch_requests_witness :
  sent (fetch_reddit_posts (L := reference_sort) demo_reddit 2 demo_world_ideas_down).2
  = [RedditHot (FStr "Bearer " (VStr "token")) "ideas" 25 1;
     RedditHot (FStr "Bearer " (VStr "token")) "startups" 25 1].
Proof.
  rewrite (reddit_fetch_requests (L := reference_sort) demo_reddit 2 demo_world_ideas_down).
  - reflexivity.
  - reflexivity.
Defined.

(** X2.  A fetch sends no request exactly when its source is not enabled
    or has no query target; it then returns the empty list and leaves the
    world as it was. *)
Theorem fetch_is_idle_iff_nothing_to_query {L : ListSort}
    (reddit : RedditFetcher) (youtube : YouTubeFetcher) (max_items : Z) (w : World) :
  (sent (fetch_reddit_posts reddit max_items w).2 = sent w
   ↔ default false (reddit_enabled (reddit_config reddit)) = false
     ∨ default [] (subreddits (reddit_config reddit)) = [])
  ∧ (default false (reddit_enabled (reddit_config reddit)) = false
     ∨ default [] (subreddits (reddit_config reddit)) = [] →
     fetch_reddit_posts reddit max_items w = (Ret [], w))
  ∧ (sent (fetch_youtube_videos youtube max_items w).2 = sent w
   ↔ default false (youtube_enabled (sources_youtube (yf_config youtube))) = false
     ∨ default [] (search_terms (sources_youtube (yf_config youtube))) = [])
  ∧ (default false (youtube_enabled (sources_youtube (yf_config youtube))) = false
     ∨ default [] (search_terms (sources_youtube (yf_config youtube))) = [] →
     fetch_youtube_videos youtube max_items w = (Ret [], w)).
Proof.
  split; [|split; [|split]].
  - rewrite fetch_reddit_posts_sent. unfold reddit_requests_of.
    destruct (default false _); [|by split; [left|rewrite app_nil_r]].
    destruct (default [] _) as [|t ts]; [by split; [right|rewrite app_nil_r]|].
    split; [|by intros [|]].
    intros Heq. apply (f_equal length) in Heq.
    rewrite length_app in Heq. simpl in Heq. lia.
  - unfold fetch_reddit_posts. intros [-> | ->]; [done|].
    by destruct (negb _).
  - rewrite fetch_youtube_videos_sent. unfold youtube_requests_of.
    destruct (default false _); [|by split; [left|rewrite app_nil_r]].
    destruct (default [] _) as [|t ts]; [by split; [right|rewrite app_nil_r]|].
    split; [|by intros [|]].
    intros Heq. apply (f_equal length) in Heq.
    rewrite length_app in Heq. simpl in Heq. lia.
  - unfold fetch_youtube_videos. intros [-> | ->]; [done|].
    by destruct (negb _).
Qed.

Lemma fetch_is_idle_iff_nothing_to_query_witness :
  fetch_reddit_posts (L := reference_sort)
    {| rf_config := demo_config_all_off;
       reddit_config := sources_reddit demo_config_all_off;
       access_token := VStr "token" |} 2 demo_world
  = (Ret [], demo_world).
Proof.
  refine (proj1 (proj2 (fetch_is_idle_iff_nothing_to_query (L := reference_sort) _ demo_youtube 2
                          demo_world)) _).
  left. reflexivity.
Defined.

Section SkipFailed.
Context {A : Type}.
Context (extract : value → World → outcome (option A) * World).
Context (ident : A → value).
Context (request_for : string → request).
Context (items_of : value → outcome value).

Lemma for_targets_skips_failed (target : string) (rest : list string)
    (st : accum A) (w : World) :
  answer_fails (http w (length (sent w)) (request_for target)) →
  for_targets extract ident request_for items_of (target :: rest) st w
  = for_targets extract ident request_for items_of rest st
      (send (request_for target) w).2.
Proof.
  intros Hfail. simpl. unfold visit_target, send in *. simpl in *.
  destruct (http w (length (sent w)) (request_for target)) as [resp|e]; [|done].
  unfold read_response.
  destruct Hfail as [Hstatus | Hjson].
  - by rewrite bool_decide_true.
  - case_bool_decide; [done|].
    destruct (json resp); [done|]. done.
Qed.
End SkipFailed.

(** X3.  A query target whose request raises, whose answer has a status
    other than 200, or whose body is not JSON is skipped: the loop goes on
    with the remaining targets from the same [all_results] and seen set, in
    the world after that one request. *)
Theorem failed_target_is_skipped
    (reddit : RedditFetcher) (youtube : YouTubeFetcher) (max_items : Z)
    (terms : list string) (target : string) (rest : list string) (w : World) :
  (∀ st : accum post,
     answer_fails (http w (length (sent w)) (reddit_request reddit target)) →
     for_targets _extract_post_data p_id (reddit_request reddit) reddit_children
       (target :: rest) st w
     = for_targets _extract_post_data p_id (reddit_request reddit) reddit_children
         rest st (send (reddit_request reddit target) w).2)
  ∧ (∀ st : accum video,
     answer_fails
       (http w (length (sent w)) (youtube_request youtube max_items terms target)) →
     for_targets _extract_video_data v_videoId
       (youtube_request youtube max_items terms) youtube_items
       (target :: rest) st w
     = for_targets _extract_video_data v_videoId
         (youtube_request youtube max_items terms) youtube_items
         rest st (send (youtube_request youtube max_items terms target) w).2).
Proof.
  split; intros st; apply for_targets_skips_failed.
Qed.

Lemma failed_target_is_skipped_witness :
  all_results
    (for_targets _extract_post_data p_id (reddit_request demo_reddit)
       reddit_children ["ideas"; "startups"] (Accum [] ∅)
       demo_world_ideas_down).1
  = [demo_post "2" 50; demo_post "3" 1].
Proof.
  rewrite (proj1 (failed_target_is_skipped demo_reddit demo_youtube 2 [] "ideas"
                    ["startups"] demo_world_ideas_down)).
  - vm_compute. reflexivity.
  - left. discriminate.
Defined.

Lemma collect_all_data_sent_frame {L : ListSort} (self : DataCollector) (w : World) :
  let max_items := default 20%Z (max_items_per_source (run (dc_config self))) in
  youtube_enabled (sources_youtube (yf_config (youtube_fetcher self)))
  = youtube_enabled (sources_youtube (dc_config self)) →
  reddit_enabled (reddit_config (reddit_fetcher self))
  = reddit_enabled (sources_reddit (dc_config self)) →
  sent (collect_all_data self w).2
  = sent w ++ youtube_requests_of (youtube_fetcher self) max_items
           ++ reddit_requests_of (reddit_fetcher self)
  ∧ only_log_and_ticks w (collect_all_data self w).2.
Proof.
  intros max_items Hy Hr. unfold collect_all_data. fold max_items.
  pose proof (fetch_youtube_videos_sent (youtube_fetcher self) max_items w) as Hys.
  pose proof (fetch_youtube_videos_frame (youtube_fetcher self) max_items w) as Hyf.
  assert (default false (youtube_enabled (sources_youtube (dc_config self))) = false
          → youtube_requests_of (youtube_fetcher self) max_items = []) as Hyoff.
  { intros Hoff. unfold youtube_requests_of. by rewrite Hy, Hoff. }
  assert (default false (reddit_enabled (sources_reddit (dc_config self))) = false
          → reddit_requests_of (reddit_fetcher self) = []) as Hroff.
  { intros Hoff. unfold reddit_requests_of. by rewrite Hr, Hoff. }
  assert (∀ w1 (results : gmap string (list record)),
    sent w1 = sent w ++ youtube_requests_of (youtube_fetcher self) max_items →
    only_log_and_ticks w w1 →
    let out :=
      (let '(results, w2) :=
         if default false (reddit_enabled (sources_reddit (dc_config self)))
         then
           match fetch_reddit_posts (reddit_fetcher self) max_items w1 with
           | (Ret l, w') => (<["reddit" := RedditPost <$> l]> results, w')
           | (Raise _, w') => (<["reddit" := []]> results, w')
           end
         else (results, w1) in (results, w2)) in
    sent out.2
    = sent w ++ youtube_requests_of (youtube_fetcher self) max_items
             ++ reddit_requests_of (reddit_fetcher self)
    ∧ only_log_and_ticks w out.2) as Hreddit.
  { intros w1 results Hw1 Hf1.
    pose proof (fetch_reddit_posts_sent (reddit_fetcher self) max_items w1) as Hrs.
    pose proof (fetch_reddit_posts_frame (reddit_fetcher self) max_items w1) as Hrf.
    destruct (default false (reddit_enabled _)).
    - destruct (fetch_reddit_posts _ max_items w1) as [[lr|er] w2]; simpl in *;
        (split; [by rewrite Hrs, Hw1, <- app_assoc
                |by eapply only_log_and_ticks_trans]).
    - simpl. rewrite Hroff, app_nil_r by done. by split. }
  destruct (default false (youtube_enabled _)).
  - destruct (fetch_youtube_videos _ max_items w) as [[ly|ey] w1]; simpl in *;
      by apply Hreddit.
  - apply Hreddit; [|apply only_log_and_ticks_refl].
    by rewrite Hyoff, app_nil_r.
Qed.

(** X4.  [collect_all_data] sends the YouTube searches first and the Reddit
    listings after them, nothing else, and changes nothing in the world
    but the request log and the clock count: it writes no file. *)
Theorem collect_all_data_effects {L : ListSort} (self : DataCollector) (w : World) :
  let max_items := default 20%Z (max_items_per_source (run (dc_config self))) in
  youtube_enabled (sources_youtube (yf_config (youtube_fetcher self)))
  = youtube_enabled (sources_youtube (dc_config self)) →
  reddit_enabled (reddit_config (reddit_fetcher self))
  = reddit_enabled (sources_reddit (dc_config self)) →
  sent (collect_all_data self w).2
  = sent w ++ youtube_requests_of (youtube_fetcher self) max_items
           ++ reddit_requests_of (reddit_fetcher self)
  ∧ only_log_and_ticks w (collect_all_data self w).2.
Proof. apply collect_all_data_sent_frame. Qed.

Lemma collect_all_data_effects_witness :
  sent (collect_all_data (L := reference_sort) demo_collector demo_world).2
  = [YouTubeSearch "snippet" "ideas" 1 "video" "key";
     YouTubeSearch "snippet" "startups" 1 "video" "key";
     RedditHot (FStr "Bearer " (VStr "token")) "ideas" 25 1;
     RedditHot (FStr "Bearer " (VStr "token")) "startups" 25 1]
  ∧ files (collect_all_data (L := reference_sort) demo_collector demo_world).2 = [].
Proof.
  destruct (collect_all_data_effects (L := reference_sort) demo_collector demo_world)
    as [Hsent (_ & _ & _ & _ & _ & _ & _ & Hfiles)]; [reflexivity..|].
  split; [rewrite Hsent; reflexivity|exact Hfiles].
Defined.

(** ** Construction *)

Lemma falsy_false (o : option string) :
  falsy o = false ↔ ∃ s, o = Some s ∧ s ≠ "".
Proof.
  unfold falsy. destruct o as [s|]; [|split; [done|by intros (?&?&?)]].
  case_bool_decide as Hs.
  - split; [done|]. by intros (s' & [= <-] & ?).
  - split; [eauto|done].
Qed.

(** X5.  [_authenticate] returns a token exactly when both credentials are
    set, non-empty and ASCII, the token endpoint answers 200 with a JSON
    dict, and that dict has an ["access_token"]: the token is that value.
    With a credential missing or empty it raises [RedditAPIError] and sends
    nothing; otherwise it sends the one token request, which carries the two
    credentials, and a status other than 200 raises [RedditAPIError]. *)
Theorem authenticate_outcomes (w : World) :
  (∀ token, (_authenticate w).1 = Ret token ↔
     ∃ id secret resp data,
       environ w !! "REDDIT_CLIENT_ID" = Some id ∧ id ≠ ""
       ∧ environ w !! "REDDIT_CLIENT_SECRET" = Some secret ∧ secret ≠ ""
       ∧ is_ascii id = true ∧ is_ascii secret = true
       ∧ http w (length (sent w)) (AccessToken id secret) = Ret resp
       ∧ status_code resp = 200%Z
       ∧ json resp = Ret data
       ∧ py_getitem data "access_token" = Ret token)
  ∧ (falsy (environ w !! "REDDIT_CLIENT_ID") = true
     ∨ falsy (environ w !! "REDDIT_CLIENT_SECRET") = true →
     _authenticate w = (Raise RedditAPIError, w))
  ∧ (∀ id secret resp,
       environ w !! "REDDIT_CLIENT_ID" = Some id → id ≠ "" →
       environ w !! "REDDIT_CLIENT_SECRET" = Some secret → secret ≠ "" →
       is_ascii id = true → is_ascii secret = true →
       sent (_authenticate w).2 = sent w ++ [AccessToken id secret]
       ∧ (http w (length (sent w)) (AccessToken id secret) = Ret resp →
          status_code resp ≠ 200%Z →
          (_authenticate w).1 = Raise RedditAPIError)).
Proof.
  split; [|split].
  - intros token. unfold _authenticate. split.
    + destruct (falsy (environ w !! "REDDIT_CLIENT_ID")) eqn:Hid; [done|].
      destruct (falsy (environ w !! "REDDIT_CLIENT_SECRET")) eqn:Hsec; [done|].
      apply falsy_false in Hid as (id & Hid & ?).
      apply falsy_false in Hsec as (secret & Hsec & ?).
      rewrite Hid, Hsec. simpl.
      destruct (is_ascii id) eqn:?; [|done].
      destruct (is_ascii secret) eqn:?; [|done]. simpl.
      unfold send. simpl.
      destruct (http w (length (sent w)) (AccessToken id secret))
        as [resp|e] eqn:Hresp; [|done].
      case_bool_decide as Hst; [|done]. simpl.
      destruct (json resp) as [data|e] eqn:Hjson; [|done]. simpl.
      intros Htok. exists id, secret, resp, data. by repeat split.
    + intros (id & secret & resp & data & Hid & ? & Hsec & ? & Hai & Has
              & Hresp & Hst & Hjson & Htok).
      rewrite Hid, Hsec. simpl.
      rewrite !bool_decide_false by done. simpl.
      rewrite Hai, Has. simpl. unfold send. simpl. rewrite Hresp.
      rewrite bool_decide_true by done. simpl. by rewrite Hjson.
  - unfold _authenticate. by intros [-> | ->]; rewrite ?orb_true_r.
  - intros id secret resp Hid ? Hsec ? Hai Has.
    unfold _authenticate. rewrite Hid, Hsec. simpl.
    rewrite !bool_decide_false by done. simpl.
    rewrite Hai, Has. simpl. unfold send. simpl.
    destruct (http w (length (sent w)) (AccessToken id secret)) as [resp'|e].
    + split; [by case_bool_decide|].
      intros [= ->] Hst. by rewrite bool_decide_false.
    + by split.
Qed.

Lemma authenticate_outcomes_witness :
  (_authenticate demo_world).1 = Ret (VStr "token")
  ∧ _authenticate demo_world_no_reddit_credentials
    = (Raise RedditAPIError, demo_world_no_reddit_credentials).
Proof.
  split.
  - apply (proj1 (authenticate_outcomes demo_world)).
    exists "id", "secret".
    eexists _, _. repeat split; try reflexivity; discriminate.
  - apply (proj1 (proj2 (authenticate_outcomes
                           demo_world_no_reddit_credentials))).
    left. reflexivity.
Defined.

(** Making a directory first changes nothing in the token exchange. *)
Lemma _authenticate_make_dir (p : path) (w : World) :
  _authenticate (make_dir p w)
  = ((_authenticate w).1, make_dir p (_authenticate w).2).
Proof.
  unfold _authenticate. simpl.
  destruct (falsy _ || falsy _); [done|].
  destruct (negb _); [done|].
  unfold send. simpl.
  match goal with
  | |- context [http w ?n ?req] => destruct (http w n req) as [resp|e]
  end; [|done].
  by case_bool_decide.
Qed.

(** What a constructed collector holds, and the world it is built in. *)
Lemma DataCollector_init_inv (w w' : World) (c : DataCollector) :
  DataCollector_init w = (Ret c, w') →
  ∃ name,
    config_yml w = Some (Ret (dc_config c))
    ∧ out_dir (run (dc_config c)) = Some name
    ∧ mkdir_ok w = true
    ∧ dc_out_dir c = Join ConfigDir name
    ∧ youtube_fetcher c
      = {| yf_config := dc_config c;
           api_key := default "" (environ w !! "YOUTUBE_API_KEY") |}
    ∧ falsy (environ w !! "YOUTUBE_API_KEY") = false
    ∧ rf_config (reddit_fetcher c) = dc_config c
    ∧ reddit_config (reddit_fetcher c) = sources_reddit (dc_config c)
    ∧ (_authenticate w).1 = Ret (access_token (reddit_fetcher c))
    ∧ w' = make_dir (Join ConfigDir name) (_authenticate w).2.
Proof.
  unfold DataCollector_init, YouTubeFetcher_init, RedditFetcher_init.
  destruct (config_yml w) as [[config|e]|]; [|done..].
  destruct (out_dir (run config)) as [name|] eqn:Hname; [|done].
  destruct (mkdir_ok w); [|done]. simpl.
  destruct (falsy (environ w !! "YOUTUBE_API_KEY")); [done|].
  rewrite _authenticate_make_dir.
  destruct (_authenticate w) as [[token|e] w1]; [|done]. simpl.
  intros [= <- <-]. exists name. by repeat split.
Qed.

Lemma _authenticate_frame (w : World) :
  only_log_and_ticks w (_authenticate w).2.
Proof.
  unfold _authenticate.
  destruct (falsy _ || falsy _); [by repeat split|].
  destruct (negb _); [by repeat split|].
  unfold send. simpl.
  match goal with
  | |- context [http w ?n ?req] => destruct (http w n req) as [resp|e]
  end; [|by repeat split].
  case_bool_decide; by repeat split.
Qed.

Lemma only_log_and_ticks_files_untouched (w w' : World) :
  only_log_and_ticks w w' → files_untouched w w'.
Proof. intros (?&?&?&?&?&?&?&?). by repeat split. Qed.

Lemma files_untouched_trans (w1 w2 w3 : World) :
  files_untouched w1 w2 → files_untouched w2 w3 → files_untouched w1 w3.
Proof.
  intros (?&?&?&?&?&?&?) (?&?&?&?&?&?&?). repeat split; congruence.
Qed.

Lemma make_dir_files_untouched (p : path) (w : World) :
  files_untouched w (make_dir p w).
Proof. by repeat split. Qed.



(** ** The snapshot *)



Lemma collect_all_data_frame {L : ListSort} (self : DataCollector) (w : World) :
  only_log_and_ticks w (collect_all_data self w).2.
Proof.
  unfold collect_all_data.
  set (max_items := default 20%Z _).
  assert (∀ w1 (results : gmap string (list record)),
    only_log_and_ticks w w1 →
    only_log_and_ticks w
      (let '(results, w2) :=
         if default false (reddit_enabled (sources_reddit (dc_config self)))
         then
           match fetch_reddit_posts (reddit_fetcher self) max_items w1 with
           | (Ret l, w') => (<["reddit" := RedditPost <$> l]> results, w')
           | (Raise _, w') => (<["reddit" := []]> results, w')
           end
         else (results, w1) in (results, w2)).2) as Hreddit.
  { intros w1 results Hf1.
    pose proof (fetch_reddit_posts_frame (reddit_fetcher self) max_items w1) as Hrf.
    destruct (default false (reddit_enabled _)); [|done].
    destruct (fetch_reddit_posts _ max_items w1) as [[lr|er] w2]; simpl in *;
      by eapply only_log_and_ticks_trans. }
  pose proof (fetch_youtube_videos_frame (youtube_fetcher self) max_items w) as Hyf.
  destruct (default false (youtube_enabled _)).
  - destruct (fetch_youtube_videos _ max_items w) as [[ly|ey] w1]; simpl in *;
      by apply Hreddit.
  - apply Hreddit, only_log_and_ticks_refl.
Qed.

Lemma collect_all_data_frame_init {L : ListSort}
    (w w1 : World) (c : DataCollector) :
  DataCollector_init w = (Ret c, w1) →
  files_untouched w (collect_all_data c w1).2.
Proof.
  intros Hinit.
  apply DataCollector_init_inv in Hinit
    as (name & _ & _ & _ & _ & _ & _ & _ & _ & _ & ->).
  eapply files_untouched_trans;
    [apply only_log_and_ticks_files_untouched, _authenticate_frame|].
  eapply files_untouched_trans; [apply make_dir_files_untouched|].
  apply only_log_and_ticks_files_untouched, collect_all_data_frame.
Qed.

(** [main], once the collector is constructed. *)
Lemma main_constructed {L : ListSort} (w w1 : World) (c : DataCollector) :
  DataCollector_init w = (Ret c, w1) →
  main w
  = let result := (collect_all_data c w1).1 in
    let w2 := (collect_all_data c w1).2 in
    let w3 := (now (now w2).2).2 in
    let file := main_snapshot c result w2 in
    if any_values result then
      match file_write w file.1 file.2 with
      | Ret _ => (0%Z, write_file file.1 file.2 w3)
      | Raise _ => (1%Z, w3)
      end
    else (0%Z, w2).
Proof.
  intros Hinit.
  pose proof (collect_all_data_frame_init _ _ _ Hinit)
    as (_ & _ & _ & Hwrite & _).
  pose proof (DataCollector_init_inv _ _ _ Hinit) as (name & Hcfg & _).
  unfold main. rewrite Hcfg, Hinit.
  destruct (collect_all_data c w1) as [result w2]. simpl in *.
  destruct (any_values result); [|done].
  unfold save_json, main_snapshot. simpl. rewrite Hwrite.
  by destruct (file_write w _ _).
Qed.





(** X9.  With the collector constructed and neither source enabled, [main]
    returns exit code 0 straight away: it sends no data request, reads no
    clock and writes no snapshot, so the world is the one construction
    left. *)
Theorem main_without_enabled_sources {L : ListSort} (w w1 : World) (c : DataCollector) :
  DataCollector_init w = (Ret c, w1) →
  default false (youtube_enabled (sources_youtube (dc_config c))) = false →
  default false (reddit_enabled (sources_reddit (dc_config c))) = false →
  main w = (0%Z, w1).
Proof.
  intros Hinit Hy Hr.
  rewrite (main_constructed _ _ _ Hinit).
  unfold collect_all_data. by rewrite Hy, Hr.
Qed.

Lemma main_without_enabled_sources_witness :
  (main (L := reference_sort) demo_world_all_off).1 = 0%Z
  ∧ files (main (L := reference_sort) demo_world_all_off).2 = []
  ∧ sent (main (L := reference_sort) demo_world_all_off).2 = [AccessToken "id" "secret"].
Proof.
  rewrite (main_without_enabled_sources (L := reference_sort) demo_world_all_off
             (DataCollector_init demo_world_all_off).2
             {| dc_config := demo_config_all_off; dc_out_dir := Join ConfigDir "data";
                youtube_fetcher :=
                  {| yf_config := demo_config_all_off; api_key := "key" |};
                reddit_fetcher :=
                  {| rf_config := demo_config_all_off;
                     reddit_config := sources_reddit demo_config_all_off;
                     access_token := VStr "token" |} |}).
  - split; [reflexivity|]. split; vm_compute; reflexivity.
  - vm_compute; reflexivity.
  - reflexivity.
  - reflexivity.
Defined.



(** A write that fails: [save_json] raises what the write raised, [main]
    ends with exit code 1, and no snapshot is on record. *)
Example demo_main_write_fails :
  let w :=
    {| environ := environ demo_world; config_yml := config_yml demo_world;
       mkdir_ok := true; file_write := λ _ _, Raise OSError;
       http := demo_http; clock := demo_clock;
       sent := []; ticks := 0; dirs := []; files := [] |} in
  (save_json demo_collector ∅ None w).1 = Raise OSError
  ∧ (main (L := reference_sort) w).1 = 1%Z
  ∧ files (main (L := reference_sort) w).2 = []
  ∧ dirs (main (L := reference_sort) w).2 = [Join ConfigDir "data"].
Proof. by vm_compute. Qed.
(** ** The extractors, field by field *)

Ltac step_field :=
  match goal with
  | |- context [mbind _ (py_getitem ?a ?k)] =>
      let H := fresh "Hget" in
      destruct (py_getitem a k) eqn:H; simpl;
      [|match goal with e : exn |- _ => by destruct e end]
  | |- context [mbind _ (py_get ?a ?k ?d)] =>
      let H := fresh "Hget" in
      destruct (py_get a k d) eqn:H; simpl;
      [|match goal with e : exn |- _ => by destruct e end]
  end.

(** X11.  A record an extractor returns copies the raw fields as they are:
    the subscripted keys, the [.get] keys or their defaults, the permalink
    and the watch URL built on the raw permalink and video id.  Its
    [fetched_at] is the reading of the clock at extraction, never a value
    of the raw item. *)
Theorem extracted_fields_verbatim (item : value) (w : World) :
  (∀ p, (_extract_post_data item w).1 = Ret (Some p) →
     ∃ data permalink,
       py_getitem item "data" = Ret data
       ∧ py_getitem data "id" = Ret (p_id p)
       ∧ py_getitem data "title" = Ret (p_title p)
       ∧ py_get data "selftext" (VStr "") = Ret (p_selftext p)
       ∧ py_getitem data "subreddit" = Ret (p_subreddit p)
       ∧ py_get data "author" (VStr "[deleted]") = Ret (p_author p)
       ∧ py_get data "score" (VInt 0) = Ret (p_score p)
       ∧ py_get data "num_comments" (VInt 0) = Ret (p_num_comments p)
       ∧ py_getitem data "created_utc" = Ret (p_created_utc p)
       ∧ py_getitem data "permalink" = Ret permalink
       ∧ p_permalink p = FStr "https://www.reddit.com" permalink
       ∧ p_fetched_at p = isoformat (clock w (ticks w)))
  ∧ (∀ v, (_extract_video_data item w).1 = Ret (Some v) →
     ∃ id snippet,
       py_getitem item "id" = Ret id
       ∧ py_getitem id "videoId" = Ret (v_videoId v)
       ∧ py_getitem item "snippet" = Ret snippet
       ∧ py_getitem snippet "title" = Ret (v_title v)
       ∧ py_getitem snippet "description" = Ret (v_description v)
       ∧ py_getitem snippet "channelTitle" = Ret (v_channelTitle v)
       ∧ py_getitem snippet "publishedAt" = Ret (v_publishedAt v)
       ∧ v_url v = FStr "https://www.youtube.com/watch?v=" (v_videoId v)
       ∧ v_fetched_at v = isoformat (clock w (ticks w))).
Proof.
  split.
  - intros p. unfold _extract_post_data. do 10 step_field.
    intros [= <-]. simpl. eexists _, _. by repeat split.
  - intros v. unfold _extract_video_data. do 7 step_field.
    intros [= <-]. simpl. eexists _, _. by repeat split.
Qed.

Lemma extracted_fields_verbatim_witness :
  ∃ data, py_getitem (raw_post "1" 5) "data" = Ret data
    ∧ py_getitem data "id" = Ret (p_id (demo_post "1" 5))
    ∧ py_get data "author" (VStr "[deleted]") = Ret (p_author (demo_post "1" 5)).
Proof.
  destruct (proj1 (extracted_fields_verbatim (raw_post "1" 5) demo_world)
              (demo_post "1" 5))
    as (data & permalink & Hdata & Hid & _ & _ & _ & Hauthor & _).
  - reflexivity.
  - exists data. by repeat split.
Defined.

(** X12.  An extractor reads the clock exactly once when it returns a
    record and not at all when it returns the absent result or raises; it
    touches nothing else of the world. *)
Theorem extractor_reads_clock_once (item : value) (w : World) :
  ((∃ p, (_extract_post_data item w).1 = Ret (Some p)) →
     (_extract_post_data item w).2 = (now w).2)
  ∧ ((∀ p, (_extract_post_data item w).1 ≠ Ret (Some p)) →
     (_extract_post_data item w).2 = w)
  ∧ ((∃ v, (_extract_video_data item w).1 = Ret (Some v)) →
     (_extract_video_data item w).2 = (now w).2)
  ∧ ((∀ v, (_extract_video_data item w).1 ≠ Ret (Some v)) →
     (_extract_video_data item w).2 = w).
Proof.
  unfold _extract_post_data, _extract_video_data.
  destruct (_ ← py_getitem item "data"; _) as [mkp|ep];
    destruct (_ ← py_getitem item "id"; _) as [mkv|ev]; simpl;
    repeat split;
    try done;
    try (intros [? ?]; by repeat match goal with e : exn |- _ => destruct e end);
    try (intros Hno; by repeat match goal with e : exn |- _ => destruct e end);
    intros Hno; exfalso; by eapply Hno.
Qed.

Lemma extractor_reads_clock_once_witness :
  ticks (_extract_post_data (raw_post "1" 5) demo_world).2 = 1
  ∧ ticks (_extract_post_data raw_post_null_data demo_world).2 = 0.
Proof.
  destruct (extractor_reads_clock_once (raw_post "1" 5) demo_world)
    as (Hyes & _).
  destruct (extractor_reads_clock_once raw_post_null_data demo_world)
    as (_ & Hno & _).
  split.
  - rewrite Hyes; [reflexivity|]. by eexists.
  - rewrite Hno; [reflexivity|]. intros p. discriminate.
Defined.

(** ** Ranking and truncation *)

Section Truncation.
Context {L : ListSort} {A : Type} (key : A → value).

(** What the slice drops ranks no higher than what it keeps, on keys that
    are ordered consistently. *)
Lemma slice_of_sort_keeps_top (acc s : list A) (n : Z) (kept dropped : A) :
  consistent (key <$> acc) →
  list_sort_reverse key acc = Ret s →
  kept ∈ py_slice_to s n → dropped ∈ acc → dropped ∉ py_slice_to s n →
  ranked_ge (key kept) (key dropped).
Proof.
  intros Hc Hsort Hk Hd Hnd.
  rewrite (list_sort_consistent key acc Hc) in Hsort.
  injection Hsort as <-.
  pose proof (sorted_desc_sorted key acc Hc) as Hs.
  destruct (py_slice_to_prefix (sorted_desc key acc) n) as [rest Hrest].
  rewrite Hrest in Hs. rewrite <- (sorted_desc_perm key acc), Hrest in Hd.
  apply elem_of_app in Hd as [?|Hd]; [done|].
  exact (StronglySorted_app_1_elem_of
           (λ a b, ranked_ge (key a) (key b)) _ _ kept dropped Hs Hk Hd).
Qed.

Lemma slice_of_sort_length (acc s : list A) (n : Z) :
  list_sort_reverse key acc = Ret s → (0 ≤ n)%Z →
  length (py_slice_to s n) = Nat.min (Z.to_nat n) (length acc).
Proof.
  intros Hp%list_sort_perm Hn.
  unfold py_slice_to. destruct (Z.leb_spec 0 n); [|lia].
  by rewrite length_take, Hp.
Qed.

Lemma slice_of_sort_all (acc s : list A) (n : Z) :
  list_sort_reverse key acc = Ret s → (Z.of_nat (length acc) ≤ n)%Z →
  py_slice_to s n ≡ₚ acc.
Proof.
  intros Hp%list_sort_perm Hn.
  unfold py_slice_to. destruct (Z.leb_spec 0 n); [|lia].
  rewrite take_ge; [done|]. rewrite Hp. lia.
Qed.
End Truncation.

(** X13.  Truncation keeps the top of the ranking when [<] orders the
    ranking keys consistently (numbers without a [NaN] among them, or
    strings): a record accumulated by a fetch and left out of its result
    ranks no higher than any record the fetch returns. *)
Theorem fetch_keeps_top_ranked {L : ListSort}
    (reddit : RedditFetcher) (youtube : YouTubeFetcher) (max_items : Z) (w : World) :
  (consistent (p_score <$> reddit_accumulated reddit w) →
   ∀ l kept dropped,
     (fetch_reddit_posts reddit max_items w).1 = Ret l →
     kept ∈ l → dropped ∈ reddit_accumulated reddit w → dropped ∉ l →
     ranked_ge (p_score kept) (p_score dropped))
  ∧ (consistent (v_publishedAt <$> youtube_accumulated youtube max_items w) →
     ∀ l kept dropped,
     (fetch_youtube_videos youtube max_items w).1 = Ret l →
     kept ∈ l → dropped ∈ youtube_accumulated youtube max_items w →
     dropped ∉ l →
     ranked_ge (v_publishedAt kept) (v_publishedAt dropped)).
Proof.
  split; intros Hc l kept dropped Hl Hk Hd Hnd.
  - apply fetch_reddit_posts_sorted_slice in Hl as (s & Hs & ->).
    by eapply slice_of_sort_keeps_top.
  - apply fetch_youtube_videos_sorted_slice in Hl as (s & Hs & ->).
    by eapply slice_of_sort_keeps_top.
Qed.

Lemma fetch_keeps_top_ranked_witness :
  ranked_ge (p_score (demo_post "1" 5)) (p_score (demo_post "3" 1)).
Proof.
  apply (proj1 (fetch_keeps_top_ranked (L := reference_sort)
                  demo_reddit demo_youtube 2 demo_world)
           ltac:(apply consistent_numbers;
                 assert (reddit_accumulated demo_reddit demo_world
                         = [demo_post "1" 5; demo_post "2" 9; demo_post "3" 1])
                   as -> by (vm_compute; reflexivity);
                 by repeat constructor)
           [demo_post "2" 9; demo_post "1" 5]).
  - vm_compute; reflexivity.
  - right. left.
  - vm_compute. right. right. left.
  - intros Hin. apply elem_of_cons in Hin as [Heq | Hin]; [discriminate|].
    apply elem_of_cons in Hin as [Heq | Hin]; [discriminate|].
    by apply elem_of_nil in Hin.
Defined.

(** Around a [NaN] the slice can drop what ranks higher than what it
    keeps: of the scores [1], [NaN], [2] the first is kept and the last
    dropped. *)
Example truncation_around_nan :
  (fetch_reddit_posts (L := reference_sort) demo_reddit 1
     demo_world_nan_score).1
  = Ret [demo_post_scored "1" (VInt 1)]
  ∧ demo_post_scored "3" (VInt 2)
    ∈ reddit_accumulated demo_reddit demo_world_nan_score
  ∧ py_lt (VInt 1) (VInt 2) = Ret true.
Proof.
  split; [by vm_compute|]. split; [|done].
  vm_compute. right. right. left.
Qed.

(** X14.  For [max_items >= 0] a fetch returns exactly
    [min(max_items, n)] records, [n] being the number of distinct records
    accumulated; when [max_items >= n] it returns all of them, reordered. *)
Theorem fetch_length_exact {L : ListSort}
    (reddit : RedditFetcher) (youtube : YouTubeFetcher) (max_items : Z) (w : World) :
  (0 ≤ max_items)%Z →
  (∀ l, (fetch_reddit_posts reddit max_items w).1 = Ret l →
     length l = Nat.min (Z.to_nat max_items) (length (reddit_accumulated reddit w))
     ∧ ((Z.of_nat (length (reddit_accumulated reddit w)) ≤ max_items)%Z →
        l ≡ₚ reddit_accumulated reddit w))
  ∧ (∀ l, (fetch_youtube_videos youtube max_items w).1 = Ret l →
     length l
     = Nat.min (Z.to_nat max_items)
         (length (youtube_accumulated youtube max_items w))
     ∧ ((Z.of_nat (length (youtube_accumulated youtube max_items w)) ≤ max_items)%Z →
        l ≡ₚ youtube_accumulated youtube max_items w)).
Proof.
  intros Hn. split; intros l Hl.
  - apply fetch_reddit_posts_sorted_slice in Hl as (s & Hs & ->).
    split; [by apply (slice_of_sort_length p_score)|].
    by apply (slice_of_sort_all p_score).
  - apply fetch_youtube_videos_sorted_slice in Hl as (s & Hs & ->).
    split; [by apply (slice_of_sort_length v_publishedAt)|].
    by apply (slice_of_sort_all v_publishedAt).
Qed.

Lemma fetch_length_exact_witness :
  ∃ l, (fetch_reddit_posts (L := reference_sort) demo_reddit 2 demo_world).1 = Ret l
    ∧ length l = 2
    ∧ length (reddit_accumulated demo_reddit demo_world) = 3.
Proof.
  destruct (fetch_length_exact (L := reference_sort) demo_reddit demo_youtube 2 demo_world)
    as [Hreddit _]; [lia|].
  eexists. split; [vm_compute; reflexivity|].
  split; [|vm_compute; reflexivity].
  rewrite (proj1 (Hreddit _ ltac:(vm_compute; reflexivity))).
  vm_compute. reflexivity.
Defined.

(** X15.  The per-query caps of a YouTube fetch never add up to more than
    [max_items >= 0], fall short of it by less than the number of terms,
    and are all zero when there are more terms than [max_items]. *)
Theorem youtube_caps_underfill {L : ListSort}
    (self : YouTubeFetcher) (max_items : Z) (w : World) (terms : list string) :
  default false (youtube_enabled (sources_youtube (yf_config self))) = true →
  search_terms (sources_youtube (yf_config self)) = Some terms →
  terms ≠ [] →
  (0 ≤ max_items)%Z →
  ∃ cap,
    sent (fetch_youtube_videos self max_items w).2
    = sent w ++
      ((λ term, YouTubeSearch "snippet" term cap "video" (api_key self)) <$> terms)
    ∧ (0 ≤ cap)%Z
    ∧ (Z.of_nat (length terms) * cap ≤ max_items)%Z
    ∧ (max_items - Z.of_nat (length terms) < Z.of_nat (length terms) * cap)%Z
    ∧ ((max_items < Z.of_nat (length terms))%Z → cap = 0%Z).
Proof.
  intros Hen Hterms Hne Hn.
  assert (0 < Z.of_nat (length terms))%Z as Hlen
    by (destruct terms; [done|simpl; lia]).
  exists (max_items `div` Z.of_nat (length terms))%Z.
  split.
  { rewrite fetch_youtube_videos_sent. unfold youtube_requests_of.
    by rewrite Hen, Hterms. }
  split; [by apply Z.div_pos|].
  split; [by apply Z.mul_div_le|].
  split.
  - pose proof (Z.mul_succ_div_gt max_items (Z.of_nat (length terms)) Hlen). lia.
  - intros Hlt. apply Z.div_small. lia.
Qed.

Lemma youtube_caps_underfill_witness :
  sent (fetch_youtube_videos (L := reference_sort) demo_youtube 1 demo_world).2
  = [YouTubeSearch "snippet" "ideas" 0 "video" "key";
     YouTubeSearch "snippet" "startups" 0 "video" "key"].
Proof.
  destruct (youtube_caps_underfill (L := reference_sort) demo_youtube 1 demo_world ["ideas"; "startups"])
    as (cap & Hsent & _ & _ & _ & Hzero); [reflexivity|reflexivity|discriminate|lia|].
  rewrite Hsent, Hzero; [reflexivity|]. simpl. lia.
Defined.

(** ** The seen set and the accumulated records *)

Section SeenFacts.
Context {A : Type}.
Context (extract : value → World → outcome (option A) * World).
Context (ident : A → value).
Context (request_for : string → request).
Context (items_of : value → outcome value).

Lemma keys_of_dedup_from (E : gset hkey) (s : list A) :
  E ∪ keys_of ident (dedup_from ident E s) = E ∪ keys_of ident s.
Proof.
  revert E. induction s as [|r s IH]; intros E; simpl; [done|].
  destruct (hash_of ident r) as [k|] eqn:Hk.
  - rewrite (keys_of_cons_Some ident r s k Hk).
    case_decide as Hin.
    + rewrite IH. set_solver.
    + rewrite (keys_of_cons_Some ident r _ k Hk).
      specialize (IH ({[k]} ∪ E)). set_solver.
  - rewrite (keys_of_cons_None ident r s Hk). apply IH.
Qed.

Lemma dedup_from_all_seen (E : gset hkey) (s : list A) :
  keys_of ident s ⊆ E → dedup_from ident E s = [].
Proof.
  induction s as [|r s IH]; simpl; [done|].
  destruct (hash_of ident r) as [k|] eqn:Hk.
  - rewrite (keys_of_cons_Some ident r s k Hk). intros Hsub.
    rewrite decide_True by set_solver. apply IH. set_solver.
  - rewrite (keys_of_cons_None ident r s Hk). apply IH.
Qed.

Lemma for_targets_seen (targets : list string) (st : accum A) (w : World) :
  seen st = keys_of ident (all_results st) →
  let st' := (for_targets extract ident request_for items_of targets st w).1 in
  seen st' = keys_of ident (all_results st')
  ∧ all_results st `prefix_of` all_results st'.
Proof.
  intros Hinv.
  destruct (extracted_targets extract ident request_for items_of targets w)
    as [s w'] eqn:He.
  rewrite (for_targets_extracted _ _ _ _ _ _ _ _ _ He). simpl. split.
  - by rewrite keys_of_app, <- Hinv, keys_of_dedup_from.
  - by apply prefix_app_r.
Qed.

Lemma for_targets_all_seen (targets : list string) (st : accum A) (w : World) :
  keys_of ident
    (extracted_targets extract ident request_for items_of targets w).1
  ⊆ seen st →
  all_results (for_targets extract ident request_for items_of targets st w).1
  = all_results st.
Proof.
  destruct (extracted_targets extract ident request_for items_of targets w)
    as [s w'] eqn:He.
  rewrite (for_targets_extracted _ _ _ _ _ _ _ _ _ He). simpl. intros Hsub.
  by rewrite dedup_from_all_seen, app_nil_r.
Qed.
End SeenFacts.

(** X16.  The loop keeps the seen set equal to the set of identity keys of
    [all_results], and only ever appends to [all_results]: a record, once
    accumulated, keeps its place until the sort. *)
Theorem seen_tracks_all_results
    (reddit : RedditFetcher) (youtube : YouTubeFetcher) (max_items : Z)
    (terms targets : list string) (w : World) :
  (∀ st : accum post,
     seen st = keys_of p_id (all_results st) →
     let st' := (for_targets _extract_post_data p_id (reddit_request reddit)
                   reddit_children targets st w).1 in
     seen st' = keys_of p_id (all_results st')
     ∧ all_results st `prefix_of` all_results st')
  ∧ (∀ st : accum video,
     seen st = keys_of v_videoId (all_results st) →
     let st' := (for_targets _extract_video_data v_videoId
                   (youtube_request youtube max_items terms) youtube_items
                   targets st w).1 in
     seen st' = keys_of v_videoId (all_results st')
     ∧ all_results st `prefix_of` all_results st').
Proof. split; intros st; apply for_targets_seen. Qed.

Lemma seen_tracks_all_results_witness :
  seen (reddit_collect demo_reddit ["ideas"; "startups"] demo_world).1
  = keys_of p_id
      (all_results (reddit_collect demo_reddit ["ideas"; "startups"] demo_world).1).
Proof.
  apply (proj1 (seen_tracks_all_results demo_reddit demo_youtube 2 []
                  ["ideas"; "startups"] demo_world) (Accum [] ∅)).
  reflexivity.
Defined.

(** X17.  Query targets whose records all carry identity keys already seen
    add nothing: [all_results] stays as it was. *)
Theorem seen_keys_add_nothing
    (reddit : RedditFetcher) (youtube : YouTubeFetcher) (max_items : Z)
    (terms targets : list string) (w : World) :
  (∀ st : accum post,
     keys_of p_id
       (extracted_targets _extract_post_data p_id (reddit_request reddit)
          reddit_children targets w).1 ⊆ seen st →
     all_results (for_targets _extract_post_data p_id (reddit_request reddit)
                    reddit_children targets st w).1
     = all_results st)
  ∧ (∀ st : accum video,
     keys_of v_videoId
       (extracted_targets _extract_video_data v_videoId
          (youtube_request youtube max_items terms) youtube_items targets w).1
     ⊆ seen st →
     all_results (for_targets _extract_video_data v_videoId
                    (youtube_request youtube max_items terms) youtube_items
                    targets st w).1
     = all_results st).
Proof. split; intros st; apply for_targets_all_seen. Qed.

Lemma seen_keys_add_nothing_witness :
  all_results
    (for_targets _extract_post_data p_id (reddit_request demo_reddit)
       reddit_children ["ideas"]
       (Accum [demo_post "2" 50] {[HStr "1"; HStr "2"]}) demo_world).1
  = [demo_post "2" 50].
Proof.
  apply (proj1 (seen_keys_add_nothing demo_reddit demo_youtube 2 [] ["ideas"]
                  demo_world) (Accum [demo_post "2" 50] {[HStr "1"; HStr "2"]})).
  assert (keys_of p_id
            (extracted_targets _extract_post_data p_id (reddit_request demo_reddit)
               reddit_children ["ideas"] demo_world).1
          = {[HStr "1"; HStr "2"]}) as -> by (vm_compute; reflexivity).
  reflexivity.
Defined.

(** ** Items that yield no record *)

Section ItemFacts.
Context {A : Type}.
Context (extract : value → World → outcome (option A) * World).
Context (ident : A → value).

Lemma for_items_app (items1 items2 : list value) (st : accum A) (w : World) :
  for_items extract ident (items1 ++ items2) st w
  = match for_items extract ident items1 st w with
    | (Ret _, st1, w1) => for_items extract ident items2 st1 w1
    | (Raise e, st1, w1) => (Raise e, st1, w1)
    end.
Proof.
  revert st w. induction items1 as [|item rest IH]; intros st w; simpl; [done|].
  destruct (visit_item extract ident item st w) as [[st1|e] w1]; [apply IH|done].
Qed.

Lemma for_items_raising (before after : list value) (bad : value)
    (st st1 : accum A) (w w1 : World) (e : exn) :
  for_items extract ident before st w = (Ret (), st1, w1) →
  (extract bad w1).1 = Raise e →
  for_items extract ident (before ++ bad :: after) st w
  = (Raise e, st1, (extract bad w1).2).
Proof.
  intros Hbefore Hbad. rewrite for_items_app, Hbefore. simpl.
  unfold visit_item. destruct (extract bad w1) as [o w2]. simpl in *.
  by subst o.
Qed.

Lemma for_items_absent (item : value) (rest : list value)
    (st : accum A) (w : World) :
  extract item w = (Ret None, w) →
  for_items extract ident (item :: rest) st w
  = for_items extract ident rest st w.
Proof. intros Hnone. simpl. unfold visit_item. by rewrite Hnone. Qed.
End ItemFacts.

Lemma _extract_post_data_incomplete (item : value) (w : World) :
  post_shaped item = true → post_complete item = false →
  _extract_post_data item w = (Ret None, w).
Proof.
  unfold post_shaped, post_complete, dict_or_absent, _extract_post_data.
  destruct (py_getitem item "data") as [[|?|?|?|?|?|d]|[]]; try done.
  simpl. intros _.
  split_lookup "id" d. split_lookup "title" d. split_lookup "subreddit" d.
  split_lookup "created_utc" d. split_lookup "permalink" d.
Qed.

Lemma _extract_video_data_incomplete (item : value) (w : World) :
  video_shaped item = true → video_complete item = false →
  _extract_video_data item w = (Ret None, w).
Proof.
  unfold video_shaped, video_complete, dict_or_absent, _extract_video_data.
  destruct (py_getitem item "id") as [[|?|?|?|?|?|i]|[]]; try done; simpl;
    destruct (py_getitem item "snippet") as [[|?|?|?|?|?|sn]|[]]; try done; simpl;
    intros _.
  - split_lookup "videoId" i.
    split_lookup "title" sn. split_lookup "description" sn.
    split_lookup "channelTitle" sn. split_lookup "publishedAt" sn.
  - by split_lookup "videoId" i.
Qed.

(** X18.  A raw item on which the extractor raises ends the item loop of
    its answer with that exception: the records appended before it stay,
    the items after it are not read. *)
Theorem raising_item_ends_its_listing
    (before after : list value) (bad : value) (w w1 : World) (e : exn) :
  (∀ st st1 : accum post,
     for_items _extract_post_data p_id before st w = (Ret (), st1, w1) →
     (_extract_post_data bad w1).1 = Raise e →
     for_items _extract_post_data p_id (before ++ bad :: after) st w
     = (Raise e, st1, w1))
  ∧ (∀ st st1 : accum video,
     for_items _extract_video_data v_videoId before st w = (Ret (), st1, w1) →
     (_extract_video_data bad w1).1 = Raise e →
     for_items _extract_video_data v_videoId (before ++ bad :: after) st w
     = (Raise e, st1, w1)).
Proof.
  split; intros st st1 Hbefore Hbad.
  - rewrite (for_items_raising _ _ _ _ _ _ _ _ _ _ Hbefore Hbad).
    do 2 f_equal. unfold _extract_post_data in *.
    destruct (_ ← py_getitem bad "data"; _) as [mk|[]]; done.
  - rewrite (for_items_raising _ _ _ _ _ _ _ _ _ _ Hbefore Hbad).
    do 2 f_equal. unfold _extract_video_data in *.
    destruct (_ ← py_getitem bad "id"; _) as [mk|[]]; done.
Qed.

Lemma raising_item_ends_its_listing_witness :
  (for_items _extract_post_data p_id
     ([raw_post "1" 5] ++ raw_post_null_data :: [raw_post "2" 9])
     (Accum [] ∅) demo_world).1
  = (Raise TypeError, Accum [demo_post "1" 5] {[HStr "1"]}).
Proof.
  rewrite (proj1 (raising_item_ends_its_listing [raw_post "1" 5]
                    [raw_post "2" 9] raw_post_null_data demo_world
                    (now demo_world).2 TypeError)
             (Accum [] ∅) (Accum [demo_post "1" 5] {[HStr "1"]})).
  - reflexivity.
  - vm_compute; reflexivity.
  - reflexivity.
Defined.

(** X19.  A raw item of the expected shape that lacks a subscripted key is
    dropped silently: no record, no clock reading, no exception, and the
    loop goes on with the next item from the same state. *)
Theorem incomplete_item_is_skipped (item : value) (rest : list value) (w : World) :
  (post_shaped item = true → post_complete item = false →
   ∀ st : accum post,
     for_items _extract_post_data p_id (item :: rest) st w
     = for_items _extract_post_data p_id rest st w)
  ∧ (video_shaped item = true → video_complete item = false →
   ∀ st : accum video,
     for_items _extract_video_data v_videoId (item :: rest) st w
     = for_items _extract_video_data v_videoId rest st w).
Proof.
  split; intros Hshape Hinc st; apply for_items_absent.
  - by apply _extract_post_data_incomplete.
  - by apply _extract_video_data_incomplete.
Qed.

Lemma incomplete_item_is_skipped_witness :
  all_results
    (for_items _extract_video_data v_videoId
       [raw_video_no_description; raw_video "b" "2024-03-01T00:00:00Z"]
       (Accum [] ∅) demo_world).1.2
  = all_results
      (for_items _extract_video_data v_videoId
         [raw_video "b" "2024-03-01T00:00:00Z"] (Accum [] ∅) demo_world).1.2.
Proof.
  rewrite (proj2 (incomplete_item_is_skipped raw_video_no_description
                    [raw_video "b" "2024-03-01T00:00:00Z"] demo_world));
    reflexivity.
Defined.

(** ** The requests of a whole run *)

Lemma _authenticate_Ret_sent (w w' : World) (token : value) :
  _authenticate w = (Ret token, w') →
  ∃ id secret,
    environ w !! "REDDIT_CLIENT_ID" = Some id
    ∧ environ w !! "REDDIT_CLIENT_SECRET" = Some secret
    ∧ sent w' = sent w ++ [AccessToken id secret].
Proof.
  unfold _authenticate.
  destruct (falsy (environ w !! "REDDIT_CLIENT_ID")) eqn:Hid; [done|].
  destruct (falsy (environ w !! "REDDIT_CLIENT_SECRET")) eqn:Hsec; [done|].
  apply falsy_false in Hid as (id & Hid & ?).
  apply falsy_false in Hsec as (secret & Hsec & ?).
  rewrite Hid, Hsec. simpl.
  destruct (negb _); [done|].
  unfold send. simpl.
  destruct (http w (length (sent w)) (AccessToken id secret)) as [resp|e];
    [|done].
  case_bool_decide; [|done].
  intros [= _ <-]. by exists id, secret.
Qed.

(** X20.  A run of [main] whose collector is constructed sends, in this
    order and nothing else: the token request with the two credentials of
    the environment, the YouTube searches, the Reddit listings.  Writing
    the snapshot sends nothing. *)
Theorem main_requests {L : ListSort} (w w1 : World) (c : DataCollector) :
  DataCollector_init w = (Ret c, w1) →
  ∃ id secret,
    environ w !! "REDDIT_CLIENT_ID" = Some id
    ∧ environ w !! "REDDIT_CLIENT_SECRET" = Some secret
    ∧ sent (main w).2
      = sent w ++
        AccessToken id secret
        :: youtube_requests_of (youtube_fetcher c)
             (default 20%Z (max_items_per_source (run (dc_config c))))
        ++ reddit_requests_of (reddit_fetcher c).
Proof.
  intros Hinit.
  pose proof (DataCollector_init_inv _ _ _ Hinit)
    as (name & Hcfg & _ & _ & _ & Hyf & _ & _ & Hrr & Hauth & Hw1).
  destruct (_authenticate w) as [o wa] eqn:Hrun. simpl in Hauth, Hw1. subst o.
  apply _authenticate_Ret_sent in Hrun as (id & secret & Hid & Hsec & Hsent).
  assert (sent w1 = sent w ++ [AccessToken id secret]) as Hsent1
    by (by rewrite Hw1).
  clear Hsent. rename Hsent1 into Hsent.
  exists id, secret. split; [done|]. split; [done|].
  destruct (collect_all_data_sent_frame c w1) as [Hcollect _].
  { by rewrite Hyf. }
  { by rewrite Hrr. }
  rewrite (main_constructed _ _ _ Hinit).
  destruct (collect_all_data c w1) as [all_data w2]. simpl in Hcollect.
  assert (sent w2
          = sent w ++
            AccessToken id secret
            :: youtube_requests_of (youtube_fetcher c)
                 (default 20%Z (max_items_per_source (run (dc_config c))))
            ++ reddit_requests_of (reddit_fetcher c)) as Hw2.
  { rewrite Hcollect, Hsent, <- app_assoc. done. }
  simpl. destruct (any_values all_data); [|done].
  by destruct (file_write w _ _).
Qed.

Lemma main_requests_witness :
  sent (main (L := reference_sort) demo_world).2
  = [AccessToken "id" "secret";
     YouTubeSearch "snippet" "ideas" 1 "video" "key";
     YouTubeSearch "snippet" "startups" 1 "video" "key";
     RedditHot (FStr "Bearer " (VStr "token")) "ideas" 25 1;
     RedditHot (FStr "Bearer " (VStr "token")) "startups" 25 1].
Proof.
  destruct (main_requests (L := reference_sort) demo_world (DataCollector_init demo_world).2
              demo_collector) as (id & secret & Hid & Hsec & Hsent).
  - vm_compute; reflexivity.
  - rewrite Hsent.
    assert (environ demo_world !! "REDDIT_CLIENT_ID" = Some "id") as Eid
      by (vm_compute; reflexivity).
    assert (environ demo_world !! "REDDIT_CLIENT_SECRET" = Some "secret") as Esec
      by (vm_compute; reflexivity).
    rewrite Eid in Hid. rewrite Esec in Hsec.
    injection Hid as <-. injection Hsec as <-. reflexivity.
Defined.
